(** * Postmaster connection dispatch: a shallow embedding

    The postmaster of this repository (the body of
    [src/interfaces/ecpg/include/ecpglib.h]) supervises the worker
    ("backend") processes: it admits connections ([canAcceptConnections]),
    forks backends ([BackendStartup]), handles shutdown signals ([pmdie]),
    reaps children ([reaper], [CleanupBackend], [HandleChildCrash]); the
    forked backend parses the startup packet ([ProcessStartupPacket]) and
    serves cancel requests ([processCancelRequest]).

    C integers are modelled as [Z]; bytes as [Byte.byte]; the global
    variables of the postmaster as the record [PMState]; functions that may
    call [ExitPostmaster] run in a small state-and-exit monad. *)

From Stdlib Require Import String.
From Stdlib Require Import ZArith List Bool Lia Strings.Byte Permutation.
Import ListNotations.
Open Scope Z_scope.

(** ** Configuration (GUC variables and build options) *)

Record Config := mkConfig {
  MaxBackends : Z;
  EnableSSL : bool;
  (** whether the build defines [USE_SSL] *)
  use_ssl : bool;
  Db_user_namespace : bool;
  SendStop : bool;
  XLogArchivingActive : bool;
  Redirect_stderr : bool;
  (** [PG_PROTOCOL_EARLIEST], [PG_PROTOCOL_LATEST] and
      [MAX_STARTUP_PACKET_LENGTH] of libpq/pqcomm.h *)
  PG_PROTOCOL_EARLIEST : Z;
  PG_PROTOCOL_LATEST : Z;
  MAX_STARTUP_PACKET_LENGTH : Z
}.

(** [PG_PROTOCOL(m,n)], [PG_PROTOCOL_MAJOR], [PG_PROTOCOL_MINOR]. *)
Definition PG_PROTOCOL (m n : Z) : Z := Z.lor (Z.shiftl m 16) n.
Definition PG_PROTOCOL_MAJOR (v : Z) : Z := Z.shiftr v 16.
Definition PG_PROTOCOL_MINOR (v : Z) : Z := Z.land v 65535.

(** Modelled from the spec: the constants of libpq/pqcomm.h are not in
    the repository's sources; the spec's scenarios accept version 3.0 and
    call 4.0 newer than the latest supported; the earliest is 1.0 and the
    maximum packet length 10000, the values of the release. *)
Definition default_config : Config := {|
  MaxBackends := 100;
  EnableSSL := false;
  use_ssl := true;
  Db_user_namespace := false;
  SendStop := false;
  XLogArchivingActive := false;
  Redirect_stderr := false;
  PG_PROTOCOL_EARLIEST := PG_PROTOCOL 1 0;
  PG_PROTOCOL_LATEST := PG_PROTOCOL 3 0;
  MAX_STARTUP_PACKET_LENGTH := 10000
|}.

(** ** Postmaster global state *)

(** Shutdown levels, as the [#define]s of the source. *)
Definition NoShutdown : Z := 0.
Definition SmartShutdown : Z := 1.
Definition FastShutdown : Z := 2.

Inductive signal := SIGHUP | SIGINT | SIGQUIT | SIGTERM | SIGUSR1 | SIGUSR2 | SIGSTOP.

(** An entry of [BackendList]. *)
Record Backend := mkBackend { pid : Z; cancel_key : Z }.

(** The postmaster's globals.  [next_pid] and [forks] describe the
    operating system: the pid the next successful [fork] returns and the
    outcome of the coming [fork] calls ([false] = fork fails; an empty
    script means forks succeed).  [kills] logs the [kill] calls made. *)
Record PMState := mkPM {
  Shutdown : Z;
  StartupPID : Z;
  BgWriterPID : Z;
  PgArchPID : Z;
  PgStatPID : Z;
  SysLoggerPID : Z;
  FatalError : bool;
  BackendList : list Backend;
  next_pid : Z;
  forks : list bool;
  kills : list (Z * signal)
}.

(** ** canAcceptConnections *)

Inductive CAC_state := CAC_OK | CAC_STARTUP | CAC_SHUTDOWN | CAC_RECOVERY | CAC_TOOMANY.

Definition CountChildren (st : PMState) : Z := Z.of_nat (length (BackendList st)).

Definition canAcceptConnections (cfg : Config) (st : PMState) : CAC_state :=
  if Shutdown st >? NoShutdown then CAC_SHUTDOWN
  else if negb (StartupPID st =? 0) then CAC_STARTUP
  else if FatalError st then CAC_RECOVERY
  else if CountChildren st >=? 2 * MaxBackends cfg then CAC_TOOMANY
  else CAC_OK.

(** Field updates of [PMState]. *)
Definition set_Shutdown (v : Z) (s : PMState) : PMState :=
  mkPM v (StartupPID s) (BgWriterPID s) (PgArchPID s) (PgStatPID s) (SysLoggerPID s)
       (FatalError s) (BackendList s) (next_pid s) (forks s) (kills s).
Definition set_StartupPID (v : Z) (s : PMState) : PMState :=
  mkPM (Shutdown s) v (BgWriterPID s) (PgArchPID s) (PgStatPID s) (SysLoggerPID s)
       (FatalError s) (BackendList s) (next_pid s) (forks s) (kills s).
Definition set_BgWriterPID (v : Z) (s : PMState) : PMState :=
  mkPM (Shutdown s) (StartupPID s) v (PgArchPID s) (PgStatPID s) (SysLoggerPID s)
       (FatalError s) (BackendList s) (next_pid s) (forks s) (kills s).
Definition set_PgArchPID (v : Z) (s : PMState) : PMState :=
  mkPM (Shutdown s) (StartupPID s) (BgWriterPID s) v (PgStatPID s) (SysLoggerPID s)
       (FatalError s) (BackendList s) (next_pid s) (forks s) (kills s).
Definition set_PgStatPID (v : Z) (s : PMState) : PMState :=
  mkPM (Shutdown s) (StartupPID s) (BgWriterPID s) (PgArchPID s) v (SysLoggerPID s)
       (FatalError s) (BackendList s) (next_pid s) (forks s) (kills s).
Definition set_SysLoggerPID (v : Z) (s : PMState) : PMState :=
  mkPM (Shutdown s) (StartupPID s) (BgWriterPID s) (PgArchPID s) (PgStatPID s) v
       (FatalError s) (BackendList s) (next_pid s) (forks s) (kills s).
Definition set_FatalError (v : bool) (s : PMState) : PMState :=
  mkPM (Shutdown s) (StartupPID s) (BgWriterPID s) (PgArchPID s) (PgStatPID s) (SysLoggerPID s)
       v (BackendList s) (next_pid s) (forks s) (kills s).
Definition set_BackendList (v : list Backend) (s : PMState) : PMState :=
  mkPM (Shutdown s) (StartupPID s) (BgWriterPID s) (PgArchPID s) (PgStatPID s) (SysLoggerPID s)
       (FatalError s) v (next_pid s) (forks s) (kills s).
Definition set_os (np : Z) (fs : list bool) (s : PMState) : PMState :=
  mkPM (Shutdown s) (StartupPID s) (BgWriterPID s) (PgArchPID s) (PgStatPID s) (SysLoggerPID s)
       (FatalError s) (BackendList s) np fs (kills s).
Definition add_kill (k : Z * signal) (s : PMState) : PMState :=
  mkPM (Shutdown s) (StartupPID s) (BgWriterPID s) (PgArchPID s) (PgStatPID s) (SysLoggerPID s)
       (FatalError s) (BackendList s) (next_pid s) (forks s) (kills s ++ [k]).

(** ** The postmaster monad: state passing, and [ExitPostmaster] *)

Inductive res (A : Type) :=
| Ok (a : A) (s : PMState)
| Exited (code : Z) (s : PMState).
Arguments Ok {A}.
Arguments Exited {A}.

Definition PM (A : Type) := PMState -> res A.

Definition ret {A} (a : A) : PM A := fun s => Ok a s.
Definition bind {A B} (m : PM A) (k : A -> PM B) : PM B :=
  fun s => match m s with
           | Ok a s' => k a s'
           | Exited c s' => Exited c s'
           end.
Notation "x <- m ;; k" := (bind m (fun x => k))
  (at level 61, m at next level, right associativity).
Notation "m ;; k" := (bind m (fun _ => k)) (at level 61, right associativity).

Definition gets {A} (f : PMState -> A) : PM A := fun s => Ok (f s) s.
Definition modify (f : PMState -> PMState) : PM unit := fun s => Ok tt (f s).
Definition ExitPostmaster {A} (code : Z) : PM A := fun s => Exited code s.
Definition when (b : bool) (m : PM unit) : PM unit := if b then m else ret tt.
Definition kill (p : Z) (sg : signal) : PM unit := modify (add_kill (p, sg)).

Definition final_state {A} (r : res A) : PMState :=
  match r with Ok _ s => s | Exited _ s => s end.

(** [fork()] in the parent: the child's pid, or -1 on failure. *)
Definition fork : PM Z :=
  fun s => match forks s with
           | false :: rest => Ok (-1) (set_os (next_pid s) rest s)
           | _ => Ok (next_pid s) (set_os (next_pid s + 1) (tl (forks s)) s)
           end.

Inductive xlop_kind := BS_XLOG_STARTUP | BS_XLOG_BGWRITER.

(** [StartChildProcess]: fork failure is fatal for the startup process. *)
Definition StartChildProcess (xlop : xlop_kind) : PM Z :=
  p <- fork ;;
  if p <? 0 then
    match xlop with
    | BS_XLOG_STARTUP => ExitPostmaster 1
    | BS_XLOG_BGWRITER => ret 0
    end
  else ret p.

Definition StartupDataBase : PM Z := StartChildProcess BS_XLOG_STARTUP.
Definition StartBackgroundWriter : PM Z := StartChildProcess BS_XLOG_BGWRITER.

(** [pgarch_start], [pgstat_start] and [SysLogger_Start] live outside the
    sources; each forks a child and returns its pid, or 0 on failure. *)
Definition start_aux : PM Z := p <- fork ;; ret (if p <? 0 then 0 else p).
Definition pgarch_start : PM Z := start_aux.
Definition pgstat_start : PM Z := start_aux.
Definition SysLogger_Start : PM Z := start_aux.

Fixpoint iter_list {T} (f : T -> PM unit) (l : list T) : PM unit :=
  match l with
  | [] => ret tt
  | x :: r => f x ;; iter_list f r
  end.

(** [SignalChildren]: send a signal to every regular backend. *)
Definition SignalChildren (sg : signal) : PM unit :=
  bl <- gets BackendList ;;
  iter_list (fun bp => kill (pid bp) sg) bl.

(** ** pmdie: the shutdown signal handler *)

(** The block "start the bgwriter if not running, tell it to shut down,
    tell pgarch and pgstat to quit", written out three times in the
    source (pmdie SIGTERM, pmdie SIGINT, end of reaper). *)
Definition shutdown_sequence : PM unit :=
  bw0 <- gets BgWriterPID ;;
  (if bw0 =? 0 then (bw <- StartBackgroundWriter ;; modify (set_BgWriterPID bw))
   else ret tt) ;;
  bw <- gets BgWriterPID ;;
  when (negb (bw =? 0)) (kill bw SIGUSR2) ;;
  pa <- gets PgArchPID ;;
  when (negb (pa =? 0)) (kill pa SIGQUIT) ;;
  ps <- gets PgStatPID ;;
  when (negb (ps =? 0)) (kill ps SIGQUIT).

Definition pmdie (sig : signal) : PM unit :=
  match sig with
  | SIGTERM =>
      sd <- gets Shutdown ;;
      if sd >=? SmartShutdown then ret tt else
      modify (set_Shutdown SmartShutdown) ;;
      bl <- gets BackendList ;;
      match bl with
      | _ :: _ => ret tt
      | [] =>
          sp <- gets StartupPID ;;
          fe <- gets FatalError ;;
          if negb (sp =? 0) || fe then ret tt else shutdown_sequence
      end
  | SIGINT =>
      sd <- gets Shutdown ;;
      if sd >=? FastShutdown then ret tt else
      modify (set_Shutdown FastShutdown) ;;
      bl <- gets BackendList ;;
      match bl with
      | _ :: _ =>
          fe <- gets FatalError ;;
          when (negb fe) (SignalChildren SIGTERM)
      | [] =>
          sp <- gets StartupPID ;;
          fe <- gets FatalError ;;
          if negb (sp =? 0) || fe then ret tt else shutdown_sequence
      end
  | SIGQUIT =>
      sp <- gets StartupPID ;;
      when (negb (sp =? 0)) (kill sp SIGQUIT) ;;
      bw <- gets BgWriterPID ;;
      when (negb (bw =? 0)) (kill bw SIGQUIT) ;;
      pa <- gets PgArchPID ;;
      when (negb (pa =? 0)) (kill pa SIGQUIT) ;;
      ps <- gets PgStatPID ;;
      when (negb (ps =? 0)) (kill ps SIGQUIT) ;;
      bl <- gets BackendList ;;
      (match bl with _ :: _ => SignalChildren SIGQUIT | [] => ret tt end) ;;
      ExitPostmaster 0
  | _ => ret tt
  end.

(** SIGHUP_handler (configuration reloading itself is outside the core). *)
Definition SIGHUP_handler : PM unit :=
  sd <- gets Shutdown ;;
  when (sd <=? SmartShutdown)
    (SignalChildren SIGHUP ;;
     bw <- gets BgWriterPID ;;
     when (negb (bw =? 0)) (kill bw SIGHUP) ;;
     pa <- gets PgArchPID ;;
     when (negb (pa =? 0)) (kill pa SIGHUP) ;;
     sl <- gets SysLoggerPID ;;
     when (negb (sl =? 0)) (kill sl SIGHUP)).

(** ** Child exit handling *)

Definition HandleChildCrash (cfg : Config) (p exitstatus : Z) : PM unit :=
  fe <- gets FatalError ;;
  let qsig := if SendStop cfg then SIGSTOP else SIGQUIT in
  bl <- gets BackendList ;;
  (* entries of the dead pid are removed, every other backend signalled *)
  modify (set_BackendList (filter (fun bp => negb (pid bp =? p)) bl)) ;;
  iter_list (fun bp => if pid bp =? p then ret tt
                       else when (negb fe) (kill (pid bp) qsig)) bl ;;
  bw <- gets BgWriterPID ;;
  (if p =? bw then modify (set_BgWriterPID 0)
   else when (negb (bw =? 0) && negb fe) (kill bw qsig)) ;;
  pa <- gets PgArchPID ;;
  when (negb (pa =? 0) && negb fe) (kill pa SIGQUIT) ;;
  ps <- gets PgStatPID ;;
  when (negb (ps =? 0) && negb fe) (kill ps SIGQUIT) ;;
  modify (set_FatalError true).

(** Remove the first entry with the given pid ([DLRemove] then [break]). *)
Fixpoint remove_first (p : Z) (l : list Backend) : list Backend :=
  match l with
  | [] => []
  | bp :: r => if pid bp =? p then r else bp :: remove_first p r
  end.

Definition CleanupBackend (cfg : Config) (p exitstatus : Z) : PM unit :=
  if negb (exitstatus =? 0) then HandleChildCrash cfg p exitstatus
  else modify (fun s => set_BackendList (remove_first p (BackendList s)) s).

(** One iteration of the [waitpid] loop of [reaper]; each branch of the
    source ends in [continue]. *)
Definition reap_child (cfg : Config) (p exitstatus : Z) : PM unit :=
  sp <- gets StartupPID ;;
  if negb (sp =? 0) && (p =? sp) then
    modify (set_StartupPID 0) ;;
    if negb (exitstatus =? 0) then
      (* "aborting startup due to startup process failure" *)
      ExitPostmaster 1
    else
      modify (set_FatalError false) ;;
      bw <- StartBackgroundWriter ;;
      modify (set_BgWriterPID bw) ;;
      sd <- gets Shutdown ;;
      if (sd >? NoShutdown) && negb (bw =? 0) then kill bw SIGUSR2
      else if sd =? NoShutdown then
        pa0 <- gets PgArchPID ;;
        when (XLogArchivingActive cfg && (pa0 =? 0))
          (pa <- pgarch_start ;; modify (set_PgArchPID pa)) ;;
        ps0 <- gets PgStatPID ;;
        when (ps0 =? 0) (ps <- pgstat_start ;; modify (set_PgStatPID ps))
      else ret tt
  else
  bw <- gets BgWriterPID ;;
  if negb (bw =? 0) && (p =? bw) then
    modify (set_BgWriterPID 0) ;;
    sd <- gets Shutdown ;;
    fe <- gets FatalError ;;
    bl <- gets BackendList ;;
    if (exitstatus =? 0) && (sd >? NoShutdown) && negb fe
       && match bl with [] => true | _ => false end
    then ExitPostmaster 0
    else HandleChildCrash cfg p exitstatus
  else
  pa <- gets PgArchPID ;;
  if negb (pa =? 0) && (p =? pa) then
    modify (set_PgArchPID 0) ;;
    sp' <- gets StartupPID ;; fe <- gets FatalError ;; sd <- gets Shutdown ;;
    when (XLogArchivingActive cfg && (sp' =? 0) && negb fe && (sd =? NoShutdown))
      (pa' <- pgarch_start ;; modify (set_PgArchPID pa'))
  else
  ps <- gets PgStatPID ;;
  if negb (ps =? 0) && (p =? ps) then
    modify (set_PgStatPID 0) ;;
    sp' <- gets StartupPID ;; fe <- gets FatalError ;; sd <- gets Shutdown ;;
    when ((sp' =? 0) && negb fe && (sd =? NoShutdown))
      (ps' <- pgstat_start ;; modify (set_PgStatPID ps'))
  else
  sl <- gets SysLoggerPID ;;
  if negb (sl =? 0) && (p =? sl) then
    modify (set_SysLoggerPID 0) ;;
    sl' <- SysLogger_Start ;;
    modify (set_SysLoggerPID sl')
  else
  CleanupBackend cfg p exitstatus.

(** [reaper]: the pending child exits, as (pid, exit status) pairs in the
    order [waitpid] reports them, then the recovery/shutdown tail. *)
Definition reaper (cfg : Config) (exits : list (Z * Z)) : PM unit :=
  iter_list (fun e => reap_child cfg (fst e) (snd e)) exits ;;
  fe <- gets FatalError ;;
  bl <- gets BackendList ;;
  sp <- gets StartupPID ;;
  bw <- gets BgWriterPID ;;
  let bl_nonempty := match bl with [] => false | _ => true end in
  if fe then
    if bl_nonempty || negb (sp =? 0) || negb (bw =? 0) then ret tt
    else
      (* shmem_exit, reset_shared: shared memory is not modelled *)
      sp' <- StartupDataBase ;;
      modify (set_StartupPID sp')
  else
    sd <- gets Shutdown ;;
    if sd >? NoShutdown then
      if bl_nonempty || negb (sp =? 0) then ret tt
      else shutdown_sequence
    else ret tt.

(** ** BackendStartup: forking a backend for an accepted connection *)

Definition STATUS_OK : Z := 0.
Definition STATUS_ERROR : Z := -1.

(** What the environment decides for one accepted connection: the value
    of [PostmasterRandom()], whether [malloc] and [set_noblock] succeed,
    and [strerror(errno)] should the fork fail. *)
Record ConnInput := mkConnInput {
  ci_random : Z;
  ci_malloc_ok : bool;
  ci_noblock_ok : bool;
  ci_strerror : list byte
}.

(** Result of [BackendStartup] in the postmaster: the status, the forked
    child with the admission verdict its [Port] carries, and the packets
    [send] was called with on the client socket. *)
Record BSOut := mkBSOut {
  bs_status : Z;
  bs_child : option (Z * CAC_state);
  bs_client_sends : list (list byte)
}.

Definition bytes (s : String.string) : list byte := String.list_byte_of_string s.

(** [report_fork_failure_to_client]: one [send] of ["E<msg>\n"] plus its
    terminating NUL ([snprintf] into a 1000-byte buffer), only when the
    socket could be set non-blocking. *)
Definition report_fork_failure_to_client (ci : ConnInput) : list (list byte) :=
  let buffer := firstn 999 (bytes "E"%string
                            ++ bytes "could not fork new process for connection: "%string
                            ++ ci_strerror ci ++ [x0a]) in
  if ci_noblock_ok ci then [buffer ++ [x00]] else [].

Definition BackendStartup (cfg : Config) (ci : ConnInput) : PM BSOut :=
  let MyCancelKey := ci_random ci in
  if negb (ci_malloc_ok ci) then ret (mkBSOut STATUS_ERROR None [])
  else
  cac <- gets (canAcceptConnections cfg) ;;
  p <- fork ;;
  if p <? 0 then
    ret (mkBSOut STATUS_ERROR None (report_fork_failure_to_client ci))
  else
    (* DLAddHead(BackendList, ...) *)
    modify (fun s => set_BackendList (mkBackend p MyCancelKey :: BackendList s) s) ;;
    ret (mkBSOut STATUS_OK (Some (p, cac)) []).

(** ** ServerLoop, sigusr1_handler and the event-driven postmaster *)

(** The maintenance part of one [ServerLoop] iteration. *)
Definition ServerLoop_maintenance (cfg : Config) : PM unit :=
  sl <- gets SysLoggerPID ;;
  when ((sl =? 0) && Redirect_stderr cfg)
    (sl' <- SysLogger_Start ;; modify (set_SysLoggerPID sl')) ;;
  bw <- gets BgWriterPID ;; sp <- gets StartupPID ;; fe <- gets FatalError ;;
  when ((bw =? 0) && (sp =? 0) && negb fe)
    (bw' <- StartBackgroundWriter ;;
     modify (set_BgWriterPID bw') ;;
     sd <- gets Shutdown ;;
     when ((sd >? NoShutdown) && negb (bw' =? 0)) (kill bw' SIGUSR2)) ;;
  pa <- gets PgArchPID ;; sp1 <- gets StartupPID ;; fe1 <- gets FatalError ;;
  sd1 <- gets Shutdown ;;
  when (XLogArchivingActive cfg && (pa =? 0) && (sp1 =? 0) && negb fe1 && (sd1 =? NoShutdown))
    (pa' <- pgarch_start ;; modify (set_PgArchPID pa')) ;;
  ps <- gets PgStatPID ;; sp2 <- gets StartupPID ;; fe2 <- gets FatalError ;;
  sd2 <- gets Shutdown ;;
  when ((ps =? 0) && (sp2 =? 0) && negb fe2 && (sd2 =? NoShutdown))
    (ps' <- pgstat_start ;; modify (set_PgStatPID ps')).

Definition sigusr1_handler (wake_children wake_archiver : bool) : PM unit :=
  sd <- gets Shutdown ;;
  when (wake_children && (sd <=? SmartShutdown)) (SignalChildren SIGUSR1) ;;
  pa <- gets PgArchPID ;;
  when (negb (pa =? 0) && (sd =? NoShutdown) && wake_archiver) (kill pa SIGUSR1).

Inductive event :=
| EvSignal (sg : signal)
| EvSIGCHLD (exits : list (Z * Z))
| EvSIGUSR1 (wake_children wake_archiver : bool)
| EvConnection (ci : ConnInput)
| EvTick.

Definition step (cfg : Config) (ev : event) : PM unit :=
  match ev with
  | EvSignal SIGHUP => SIGHUP_handler
  | EvSignal sg => pmdie sg
  | EvSIGCHLD exits => reaper cfg exits
  | EvSIGUSR1 wc wa => sigusr1_handler wc wa
  | EvConnection ci => _ <- BackendStartup cfg ci ;; ret tt
  | EvTick => ServerLoop_maintenance cfg
  end.

(** A run of the postmaster over a sequence of events. *)
Definition run (cfg : Config) (evs : list event) : PM unit := iter_list (step cfg) evs.

(** ** The startup packet, in the forked backend *)

Definition byteZ (b : byte) : Z := Z.of_N (Byte.to_N b).

(** The packet buffer is [palloc0]'ed one byte (at least) longer than the
    packet, so every byte past the data read is zero. *)
Definition buf_at (buf : list byte) (i : nat) : byte := nth i buf x00.

(** [ntohl] of the 32-bit word at byte offset [off]. *)
Definition ntohl_at (buf : list byte) (off : nat) : Z :=
  byteZ (buf_at buf off) * 16777216 + byteZ (buf_at buf (off + 1)) * 65536
  + byteZ (buf_at buf (off + 2)) * 256 + byteZ (buf_at buf (off + 3)).

(** Conversion to a 32-bit signed [int] (two's complement wrap-around). *)
Definition to_int32 (z : Z) : Z :=
  let m := z mod 4294967296 in if m >=? 2147483648 then m - 4294967296 else m.

(** Request codes of libpq/pqcomm.h. *)
Definition CANCEL_REQUEST_CODE : Z := PG_PROTOCOL 1234 5678.
Definition NEGOTIATE_SSL_CODE : Z := PG_PROTOCOL 1234 5679.
(** [NAMEDATALEN] of pg_config_manual.h. *)
Definition NAMEDATALEN : nat := 64.

(** [processCancelRequest]: the [kill] calls it makes.  The registry is the
    backend's copy of [BackendList]; the first entry with the pid decides,
    and nothing is sent to the client. *)
Fixpoint cancel_lookup (backendPID cancelAuthCode : Z) (l : list Backend)
  : list (Z * signal) :=
  match l with
  | [] => []                                  (* "bad pid in cancel request" *)
  | bp :: r =>
      if pid bp =? backendPID then
        if cancel_key bp =? cancelAuthCode then [(pid bp, SIGINT)]
        else []                               (* "bad key in cancel request" *)
      else cancel_lookup backendPID cancelAuthCode r
  end.

Definition processCancelRequest (registry : list Backend) (pkt : list byte)
  : list (Z * signal) :=
  let backendPID := to_int32 (ntohl_at pkt 4) in
  let cancelAuthCode := ntohl_at pkt 8 in
  cancel_lookup backendPID cancelAuthCode registry.

Record Port := mkPort {
  laddr_is_unix : bool;                 (* IS_AF_UNIX(port->laddr...) *)
  port_canAcceptConnections : CAC_state;
  proto : Z;
  database_name : option (list byte);
  user_name : option (list byte);
  cmdline_options : option (list byte);
  guc_options : list (list byte)
}.

Definition set_proto (v : Z) (p : Port) : Port :=
  mkPort (laddr_is_unix p) (port_canAcceptConnections p) v (database_name p)
         (user_name p) (cmdline_options p) (guc_options p).

Fixpoint cstrlen (l : list byte) : nat :=
  match l with
  | [] => 0
  | b :: r => if Byte.eqb b x00 then 0 else S (cstrlen r)
  end.

(** [strlen(buf + off)] and the string it measures. *)
Definition strlen_at (buf : list byte) (off : nat) : nat := cstrlen (skipn off buf).
Definition cstr_at (buf : list byte) (off : nat) : list byte :=
  firstn (strlen_at buf off) (skipn off buf).

Definition bytes_eqb (a b : list byte) : bool :=
  if list_eq_dec Byte.byte_eq_dec a b then true else false.

(** The fields of the [Port] filled from the packet body. *)
Record Fields := mkFields {
  f_database : option (list byte);
  f_user : option (list byte);
  f_options : option (list byte);
  f_guc : list (list byte)
}.

Definition no_fields : Fields := mkFields None None None [].

(** The [while (offset < len)] scan of name/value pairs of a protocol 3
    packet; it returns the final [offset].  Every iteration advances
    [offset] by at least 2, so [fuel] = [len] iterations always suffice. *)
Fixpoint scan_options (fuel : nat) (buf : list byte) (len offset : Z) (acc : Fields)
  : Z * Fields :=
  match fuel with
  | O => (offset, acc)
  | S fuel' =>
    if offset <? len then
      let nameoff := Z.to_nat offset in
      if Byte.eqb (buf_at buf nameoff) x00 then (offset, acc)  (* terminator *)
      else
      let name := cstr_at buf nameoff in
      let valoffset := offset + Z.of_nat (strlen_at buf nameoff) + 1 in
      if valoffset >=? len then (offset, acc)   (* missing value, will complain below *)
      else
      let val := cstr_at buf (Z.to_nat valoffset) in
      let acc' :=
        if bytes_eqb name (bytes "database"%string) then
          mkFields (Some val) (f_user acc) (f_options acc) (f_guc acc)
        else if bytes_eqb name (bytes "user"%string) then
          mkFields (f_database acc) (Some val) (f_options acc) (f_guc acc)
        else if bytes_eqb name (bytes "options"%string) then
          mkFields (f_database acc) (f_user acc) (Some val) (f_guc acc)
        else mkFields (f_database acc) (f_user acc) (f_options acc)
                      (f_guc acc ++ [name; val]) in
      scan_options fuel' buf len (valoffset + Z.of_nat (strlen_at buf (Z.to_nat valoffset)) + 1) acc'
    else (offset, acc)
  end.

(** Old-style fixed-width [StartupPacket]: database[64] at offset 4,
    user[32] at 68, options[64] at 100; each [pstrdup] is cut to the
    field's size. *)
Definition legacy_fields (buf : list byte) : Fields :=
  mkFields (Some (firstn 64 (cstr_at buf 4)))
           (Some (firstn 32 (cstr_at buf 68)))
           (Some (firstn 64 (cstr_at buf 100)))
           [].

(** The protocol version test of [ProcessStartupPacket]. *)
Definition unsupported_protocol (cfg : Config) (proto : Z) : bool :=
  (PG_PROTOCOL_MAJOR proto <? PG_PROTOCOL_MAJOR (PG_PROTOCOL_EARLIEST cfg))
  || (PG_PROTOCOL_MAJOR proto >? PG_PROTOCOL_MAJOR (PG_PROTOCOL_LATEST cfg))
  || ((PG_PROTOCOL_MAJOR proto =? PG_PROTOCOL_MAJOR (PG_PROTOCOL_LATEST cfg))
      && (PG_PROTOCOL_MINOR proto >? PG_PROTOCOL_MINOR (PG_PROTOCOL_LATEST cfg))).

Inductive fatal_kind :=
| FATAL_UNSUPPORTED_PROTOCOL
| FATAL_INVALID_PACKET_LAYOUT
| FATAL_NO_USER_NAME
| FATAL_CANNOT_CONNECT (c : CAC_state).

(** How [ProcessStartupPacket] ends: [STATUS_OK] with the filled [Port],
    [STATUS_ERROR], 127 after a cancel request, or [ereport(FATAL)]. *)
Inductive psp_status :=
| PSP_OK (port : Port)
| PSP_ERROR
| PSP_CANCEL
| PSP_FATAL (k : fatal_kind).

(** The status, the bytes the function itself [send]s to the client and
    the [kill] calls it makes. *)
Record psp_out := mkOut {
  psp_result : psp_status;
  psp_sent : list byte;
  psp_kills : list (Z * signal)
}.

Definition prepend_sent (b : list byte) (o : psp_out) : psp_out :=
  mkOut (psp_result o) (b ++ psp_sent o) (psp_kills o).

(** Outcomes of the socket calls made during SSL negotiation. *)
Record SSLEnv := mkSSLEnv {
  send_ok : bool;                       (* send() of the reply byte *)
  secure_open_ok : bool                 (* secure_open_server() <> -1 *)
}.

(** [pq_getbytes(buf, n)]: [None] on EOF. *)
Definition pq_getbytes (n : nat) (stream : list byte) : option (list byte * list byte) :=
  if Nat.leb n (length stream) then Some (firstn n stream, skipn n stream) else None.

(** [strchr(s, '@') == s + strlen(s) - 1]. *)
Fixpoint index_of (c : byte) (l : list byte) : option nat :=
  match l with
  | [] => None
  | b :: r => if Byte.eqb b c then Some 0%nat else option_map S (index_of c r)
  end.

(** Truncation to [NAMEDATALEN - 1] characters. *)
Definition truncate_name (s : list byte) : list byte :=
  if Nat.leb NAMEDATALEN (length s) then firstn (NAMEDATALEN - 1) s else s.

(** The part of [ProcessStartupPacket] after the fields have been read. *)
Definition finish_startup (cfg : Config) (port : Port) (f : Fields) : psp_status :=
  match f_user f with
  | None | Some [] => PSP_FATAL FATAL_NO_USER_NAME
  | Some user0 =>
    let db0 := match f_database f with
               | None | Some [] => user0        (* database defaults to the user *)
               | Some d => d
               end in
    let user1 :=
      if Db_user_namespace cfg then
        match index_of x40 user0 with
        | Some i => if Nat.eqb i (length user0 - 1) then firstn i user0
                    else user0 ++ [x40] ++ db0
        | None => user0 ++ [x40] ++ db0
        end
      else user0 in
    let port' := mkPort (laddr_is_unix port) (port_canAcceptConnections port) (proto port)
                        (Some (truncate_name db0)) (Some (truncate_name user1))
                        (f_options f) (f_guc f) in
    match port_canAcceptConnections port with
    | CAC_OK => PSP_OK port'
    | c => PSP_FATAL (FATAL_CANNOT_CONNECT c)
    end
  end.

(** The body of [ProcessStartupPacket] once the packet of [len] bytes is
    in [buf]; [recur] is the nested call made after SSL negotiation and
    [rest] what the client sends next. *)
Definition process_packet (cfg : Config) (registry : list Backend) (env : SSLEnv)
    (recur : Port -> list byte -> psp_out)
    (port0 : Port) (SSLdone : bool) (buf : list byte) (len : Z) (rest : list byte)
  : psp_out :=
  let proto := ntohl_at buf 0 in
  let port := set_proto proto port0 in
  if proto =? CANCEL_REQUEST_CODE then
    mkOut PSP_CANCEL [] (processCancelRequest registry buf)
  else if (proto =? NEGOTIATE_SSL_CODE) && negb SSLdone then
    let SSLok := if use_ssl cfg && EnableSSL cfg && negb (laddr_is_unix port)
                 then "S"%byte else "N"%byte in
    if negb (send_ok env) then mkOut PSP_ERROR [SSLok] []
    else if use_ssl cfg && Byte.eqb SSLok "S"%byte && negb (secure_open_ok env)
    then mkOut PSP_ERROR [SSLok] []
    else prepend_sent [SSLok] (recur port rest)
  else if unsupported_protocol cfg proto then
    mkOut (PSP_FATAL FATAL_UNSUPPORTED_PROTOCOL) [] []
  else if PG_PROTOCOL_MAJOR proto >=? 3 then
    let '(offset, f) := scan_options (Z.to_nat len) buf len 4 no_fields in
    if negb (offset =? len - 1) then
      (* "invalid startup packet layout: expected terminator as last byte" *)
      mkOut (PSP_FATAL FATAL_INVALID_PACKET_LAYOUT) [] []
    else mkOut (finish_startup cfg port f) [] []
  else mkOut (finish_startup cfg port (legacy_fields buf)) [] [].

Definition ProcessStartupPacket_body (cfg : Config) (registry : list Backend) (env : SSLEnv)
    (recur : Port -> list byte -> psp_out)
    (port : Port) (SSLdone : bool) (stream : list byte) : psp_out :=
  match pq_getbytes 4 stream with
  | None => mkOut PSP_ERROR [] []                       (* incomplete startup packet *)
  | Some (lenbuf, s1) =>
    let len := to_int32 (to_int32 (ntohl_at lenbuf 0) - 4) in
    if (len <? 4) || (len >? MAX_STARTUP_PACKET_LENGTH cfg) then
      mkOut PSP_ERROR [] []                             (* invalid length *)
    else
      match pq_getbytes (Z.to_nat len) s1 with
      | None => mkOut PSP_ERROR [] []
      | Some (buf, s2) => process_packet cfg registry env recur port SSLdone buf len s2
      end
  end.

(** [ProcessStartupPacket(port, SSLdone)].  The nested call made after SSL
    negotiation has [SSLdone] = true, where the SSL branch (the only place
    that recurs) is not taken, so its own [recur] is never called. *)
Definition ProcessStartupPacket (cfg : Config) (registry : list Backend) (env : SSLEnv)
    (port : Port) (SSLdone : bool) (stream : list byte) : psp_out :=
  let inner := ProcessStartupPacket_body cfg registry env
                 (fun _ _ => mkOut PSP_ERROR [] []) in
  if SSLdone then inner port true stream
  else ProcessStartupPacket_body cfg registry env (fun p s => inner p true s) port false stream.

(** An accepted connection: the postmaster forks a backend
    ([BackendStartup]); the backend ([BackendRun]) then reads the startup
    packet with its copy of [BackendList] taken at fork time. *)
Definition new_port (laddr_unix : bool) (cac : CAC_state) : Port :=
  mkPort laddr_unix cac 0 None None None [].

Definition handle_connection (cfg : Config) (ci : ConnInput) (laddr_unix : bool)
    (env : SSLEnv) (stream : list byte) : PM (BSOut * option psp_out) :=
  registry <- gets BackendList ;;
  o <- BackendStartup cfg ci ;;
  match bs_child o with
  | Some (_, cac) =>
      ret (o, Some (ProcessStartupPacket cfg registry env (new_port laddr_unix cac) false stream))
  | None => ret (o, None)
  end.

(** ** The wire format seen from the client *)

Definition byte_of (z : Z) : byte :=
  match Byte.of_N (Z.to_N z) with Some b => b | None => x00 end.

(** [htonl]: a 32-bit value in network byte order. *)
Definition htonl (n : Z) : list byte :=
  [byte_of (n / 256 / 256 / 256 mod 256); byte_of (n / 256 / 256 mod 256);
   byte_of (n / 256 mod 256); byte_of (n mod 256)].

(** A length-prefixed startup message (the length counts itself). *)
Definition startup_packet (body : list byte) : list byte :=
  htonl (Z.of_nat (length body) + 4) ++ body.

(** A program that never lowers the shutdown level. *)
Definition mono {A} (m : PM A) : Prop :=
  forall s, Shutdown s <= Shutdown (final_state (m s)).

(** ** Command-line options of a backend: [split_opts] and [BackendRun] *)

(** [isspace] in the C locale: space, \t, \n, \v, \f and \r. *)
Definition isspace (b : byte) : bool :=
  let z := byteZ b in (z =? 32) || ((9 <=? z) && (z <=? 13)).

Definition is_nul (b : byte) : bool := Byte.eqb b x00.

(** [while (isspace((unsigned char) *s)) ++s;] *)
Fixpoint skip_space (s : list byte) : list byte :=
  match s with
  | b :: r => if isspace b then skip_space r else s
  | [] => []
  end.

(** [while ( *s && !isspace((unsigned char) *s)) ++s;]: the bytes passed
    over, and where [s] stops. *)
Fixpoint take_token (s : list byte) : list byte :=
  match s with
  | b :: r => if is_nul b || isspace b then [] else b :: take_token r
  | [] => []
  end.
Fixpoint drop_token (s : list byte) : list byte :=
  match s with
  | b :: r => if is_nul b || isspace b then s else drop_token r
  | [] => []
  end.

(** The [while (s && *s)] loop of [split_opts]: the strings it stores in
    [argv], in order.  [s] is the option string from the current position
    on; the end of the list acts as its NUL.  Each iteration consumes at
    least one byte, so [fuel] = [length s] iterations suffice. *)
Fixpoint split_opts_loop (fuel : nat) (s : list byte) : list (list byte) :=
  match fuel with
  | O => []
  | S fuel' =>
    match s with
    | [] => []
    | b :: _ =>
      if is_nul b then [] else
      match skip_space s with
      | [] => []
      | (c :: _) as s1 =>
        if is_nul c then [] else                     (* if ( *s == '\0') break; *)
        let tok := take_token s1 in                  (* argv[( *argcp)++] = s; *)
        match drop_token s1 with
        | [] => [tok]
        | d :: s3 =>
          if is_nul d then [tok]
          else tok :: split_opts_loop fuel' s3       (* *s++ = '\0'; *)
        end
      end
    end
  end.

(** [split_opts(argv, &argc, s)]: the tokens of [s] appended to [argv]. *)
Definition split_opts (argv : list (list byte)) (s : option (list byte)) : list (list byte) :=
  match s with
  | None => argv
  | Some s => argv ++ split_opts_loop (length s) s
  end.

(** Decimal digits of a nonnegative number ([%d], [%u]). *)
Fixpoint dec_digits (fuel : nat) (n : Z) (acc : list byte) : list byte :=
  match fuel with
  | O => acc
  | S f =>
    let acc' := byte_of (48 + n mod 10) :: acc in
    if n <? 10 then acc' else dec_digits f (n / 10) acc'
  end.
Definition decimal (n : Z) : list byte := dec_digits 20 n [].

(** The argument vector [BackendRun] hands to [PostgresMain]: the number
    [maxac] of slots it allocates and the entries [av[0..ac-1]] it fills.
    [database_name] is set by [ProcessStartupPacket] before this point. *)
Definition BackendRun_argv (debug_flag : Z) (ExtraOptions : list byte) (port : Port)
  : Z * list (list byte) :=
  let maxac := 10 + (Z.of_nat (cstrlen ExtraOptions) + 1) / 2
               + match cmdline_options port with
                 | Some o => (Z.of_nat (cstrlen o) + 1) / 2
                 | None => 0
                 end in
  let av := [bytes "postgres"%string] in
  let av := if debug_flag >? 0 then av ++ [bytes "-d"%string ++ decimal debug_flag] else av in
  let av := split_opts av (Some ExtraOptions) in
  let av := av ++ [bytes "-v"%string ++ decimal (proto port)] in
  let db := match database_name port with Some d => d | None => [] end in
  let av := av ++ [bytes "-p"%string; db] in
  let av := split_opts av (cmdline_options port) in
  (maxac, av).

(** ** Password salts: [CharRemap] and [RandomSalt] *)

Definition CharRemap (ch : Z) : byte :=
  let ch := if ch <? 0 then - ch else ch in
  let ch := Z.rem ch 62 in
  if ch <? 26 then byte_of (65 + ch) else                 (* 'A' + ch *)
  let ch := ch - 26 in
  if ch <? 26 then byte_of (97 + ch) else                 (* 'a' + ch *)
  let ch := ch - 26 in
  byte_of (48 + ch).                                      (* '0' + ch *)

(** Conversion of an integer to [char]: its low eight bits. *)
Definition char_of (z : Z) : byte := byte_of (z mod 256).

(** [RandomSalt(cryptSalt, md5Salt)]; [r0] .. [r3] are the values of the
    four successive [PostmasterRandom()] calls. *)
Definition RandomSalt (r0 r1 r2 r3 : Z) : list byte * list byte :=
  ([CharRemap (Z.rem r0 62); CharRemap (Z.quot r0 62)],
   [char_of (Z.rem r0 255 + 1); char_of (Z.rem r1 255 + 1);
    char_of (Z.rem r2 255 + 1); char_of (Z.rem r3 255 + 1)]).

(** ** The listen sockets: [initMasks] *)

Definition MAXLISTEN : nat := 10.

(** The loop of [initMasks] over [ListenSocket]: the descriptors [FD_SET]
    in [rmask], in order, and [nsocks]. *)
Fixpoint initMasks_loop (socks : list Z) (rmask : list Z) (nsocks : Z) : list Z * Z :=
  match socks with
  | [] => (rmask, nsocks)
  | fd :: r =>
    if fd =? -1 then (rmask, nsocks)
    else initMasks_loop r (rmask ++ [fd]) (if fd >? nsocks then fd else nsocks)
  end.

(** [initMasks(&rmask)]: the mask and the returned [nsocks + 1]. *)
Definition initMasks (ListenSocket : list Z) : list Z * Z :=
  let '(rmask, nsocks) := initMasks_loop (firstn MAXLISTEN ListenSocket) [] (-1) in
  (rmask, nsocks + 1).

(** ** The EXEC_BACKEND copy of the backend list: [ShmemBackendArray] *)

Definition NUM_BACKENDARRAY_ELEMS (cfg : Config) : nat := Z.to_nat (2 * MaxBackends cfg).

(** [ShmemBackendArrayAllocation]: every slot zeroed. *)
Definition ShmemBackendArrayAllocation (cfg : Config) : list Backend :=
  repeat (mkBackend 0 0) (NUM_BACKENDARRAY_ELEMS cfg).

(** [ShmemBackendArrayAdd(bn)]: [*bn] copied into the first slot whose pid
    is 0; [None] is the [ereport(FATAL)] "no free slots". *)
Fixpoint ShmemBackendArrayAdd (bn : Backend) (arr : list Backend) : option (list Backend) :=
  match arr with
  | [] => None
  | b :: r =>
    if pid b =? 0 then Some (bn :: r)
    else option_map (cons b) (ShmemBackendArrayAdd bn r)
  end.

(** [ShmemBackendArrayRemove(pid)]: the pid of the first slot holding it
    is set to 0 (the slot's cancel key stays); the flag is [false] when no
    slot holds it (the WARNING). *)
Fixpoint ShmemBackendArrayRemove (p : Z) (arr : list Backend) : list Backend * bool :=
  match arr with
  | [] => ([], false)
  | b :: r =>
    if pid b =? p then (mkBackend 0 (cancel_key b) :: r, true)
    else let '(r', found) := ShmemBackendArrayRemove p r in (b :: r', found)
  end.

(** In an EXEC_BACKEND build [processCancelRequest] runs the same search
    over the [NUM_BACKENDARRAY_ELEMS] slots of [ShmemBackendArray], so it is
    [processCancelRequest] applied to the array. *)

(** ** The win32 child arrays: [win32_AddChild] and [win32_RemoveChild] *)

(** [win32_childPIDArray] and [win32_childHNDArray], each as its first
    [win32_numChildren] elements. *)
Record Win32Children := mkW32 {
  childPIDs : list Z;
  childHNDs : list Z
}.

(** [a[i] = x]. *)
Fixpoint set_nth {A} (i : nat) (x : A) (l : list A) : list A :=
  match l, i with
  | [], _ => []
  | _ :: r, O => x :: r
  | y :: r, S i' => y :: set_nth i' x r
  end.

(** The first index holding [p]. *)
Fixpoint find_index (p : Z) (l : list Z) : option nat :=
  match l with
  | [] => None
  | x :: r => if x =? p then Some 0%nat else option_map S (find_index p r)
  end.

(** [None] is the [ereport(FATAL)] "no room for child entry". *)
Definition win32_AddChild (cfg : Config) (p h : Z) (w : Win32Children) : option Win32Children :=
  if Nat.ltb (length (childPIDs w)) (NUM_BACKENDARRAY_ELEMS cfg)
  then Some (mkW32 (childPIDs w ++ [p]) (childHNDs w ++ [h]))
  else None.

(** The new arrays and the handle passed to [CloseHandle] ([None]: the
    WARNING "could not find child entry"). *)
Definition win32_RemoveChild (p : Z) (w : Win32Children) : Win32Children * option Z :=
  match find_index p (childPIDs w) with
  | None => (w, None)
  | Some i =>
    let n := (length (childPIDs w) - 1)%nat in          (* --win32_numChildren *)
    let pids := set_nth i (nth n (childPIDs w) 0) (childPIDs w) in
    let hnds := set_nth i (nth n (childHNDs w) 0) (childHNDs w) in
    (mkW32 (firstn n pids) (firstn n hnds), Some (nth i (childHNDs w) 0))
  end.

(** ** Protocol 3 startup packets built by a client *)

(** The name/value list of a protocol 3 startup packet and its final
    empty-name terminator. *)
Fixpoint encode_options (ps : list (list byte * list byte)) : list byte :=
  match ps with
  | [] => [x00]
  | (n, v) :: r => n ++ x00 :: v ++ x00 :: encode_options r
  end.

(** How one name/value pair is stored in the [Port] (the body of the loop
    of [ProcessStartupPacket]). *)
Definition add_option (acc : Fields) (nv : list byte * list byte) : Fields :=
  let '(name, val) := nv in
  if bytes_eqb name (bytes "database"%string) then
    mkFields (Some val) (f_user acc) (f_options acc) (f_guc acc)
  else if bytes_eqb name (bytes "user"%string) then
    mkFields (f_database acc) (Some val) (f_options acc) (f_guc acc)
  else if bytes_eqb name (bytes "options"%string) then
    mkFields (f_database acc) (f_user acc) (Some val) (f_guc acc)
  else mkFields (f_database acc) (f_user acc) (f_options acc) (f_guc acc ++ [name; val]).

(** The state after the [kill] calls [ks], in order, and nothing else. *)
Definition add_kills (ks : list (Z * signal)) (s : PMState) : PMState :=
  mkPM (Shutdown s) (StartupPID s) (BgWriterPID s) (PgArchPID s) (PgStatPID s) (SysLoggerPID s)
       (FatalError s) (BackendList s) (next_pid s) (forks s) (kills s ++ ks).

(** A name/value pair a client can put in a protocol 3 startup packet: a
    nonempty name; neither name nor value contains a NUL byte. *)
Definition option_pair_ok (nv : list byte * list byte) : Prop :=
  fst nv <> [] /\ ~ In x00 (fst nv) /\ ~ In x00 (snd nv).

(** * Properties *)

(** ** Admission control *)

(** C3: [canAcceptConnections] depends only on the shutdown level, the
    startup pid, [FatalError] and the backend count; each reject
    condition, holding alone, yields its own verdict; with none of them it
    admits; the saturation boundary is exactly [2 * MaxBackends]. *)
Theorem canAcceptConnections_single_conditions :
  forall (cfg : Config) (st : PMState),
    (forall st' : PMState,
        Shutdown st' = Shutdown st -> StartupPID st' = StartupPID st ->
        FatalError st' = FatalError st -> CountChildren st' = CountChildren st ->
        canAcceptConnections cfg st' = canAcceptConnections cfg st)
    /\ (StartupPID st <> 0 -> Shutdown st < SmartShutdown -> FatalError st = false ->
        CountChildren st < 2 * MaxBackends cfg ->
        canAcceptConnections cfg st = CAC_STARTUP)
    /\ (StartupPID st = 0 -> Shutdown st >= SmartShutdown -> FatalError st = false ->
        CountChildren st < 2 * MaxBackends cfg ->
        canAcceptConnections cfg st = CAC_SHUTDOWN)
    /\ (StartupPID st = 0 -> Shutdown st < SmartShutdown -> FatalError st = true ->
        CountChildren st < 2 * MaxBackends cfg ->
        canAcceptConnections cfg st = CAC_RECOVERY)
    /\ (StartupPID st = 0 -> Shutdown st < SmartShutdown -> FatalError st = false ->
        CountChildren st >= 2 * MaxBackends cfg ->
        canAcceptConnections cfg st = CAC_TOOMANY)
    /\ (StartupPID st = 0 -> Shutdown st < SmartShutdown -> FatalError st = false ->
        CountChildren st < 2 * MaxBackends cfg ->
        canAcceptConnections cfg st = CAC_OK)
    /\ (StartupPID st = 0 -> Shutdown st < SmartShutdown -> FatalError st = false ->
        CountChildren st = 2 * MaxBackends cfg ->
        canAcceptConnections cfg st = CAC_TOOMANY).
Proof.
  intros cfg st; unfold canAcceptConnections, SmartShutdown, NoShutdown.
  repeat split; intros.
  - rewrite H, H0, H1, H2; reflexivity.
  - destruct (Z.gtb_spec (Shutdown st) 0); [lia|].
    destruct (Z.eqb_spec (StartupPID st) 0); [lia|]; reflexivity.
  - destruct (Z.gtb_spec (Shutdown st) 0); [reflexivity|lia].
  - destruct (Z.gtb_spec (Shutdown st) 0); [lia|].
    destruct (Z.eqb_spec (StartupPID st) 0); [|lia]; rewrite H1; reflexivity.
  - destruct (Z.gtb_spec (Shutdown st) 0); [lia|].
    destruct (Z.eqb_spec (StartupPID st) 0); [|lia]; rewrite H1; cbn [negb].
    destruct (Z.geb_spec (CountChildren st) (2 * MaxBackends cfg)); [reflexivity|lia].
  - destruct (Z.gtb_spec (Shutdown st) 0); [lia|].
    destruct (Z.eqb_spec (StartupPID st) 0); [|lia]; rewrite H1; cbn [negb].
    destruct (Z.geb_spec (CountChildren st) (2 * MaxBackends cfg)); [lia|reflexivity].
  - destruct (Z.gtb_spec (Shutdown st) 0); [lia|].
    destruct (Z.eqb_spec (StartupPID st) 0); [|lia]; rewrite H1; cbn [negb].
    destruct (Z.geb_spec (CountChildren st) (2 * MaxBackends cfg)); [reflexivity|lia].
Qed.

(** C10: precedence among reject conditions: shutting down, then starting
    up, then recovery, then saturation. *)
Theorem canAcceptConnections_precedence :
  forall (cfg : Config) (st : PMState),
    (Shutdown st > NoShutdown -> canAcceptConnections cfg st = CAC_SHUTDOWN)
    /\ (Shutdown st <= NoShutdown -> StartupPID st <> 0 ->
        canAcceptConnections cfg st = CAC_STARTUP)
    /\ (Shutdown st <= NoShutdown -> StartupPID st = 0 -> FatalError st = true ->
        canAcceptConnections cfg st = CAC_RECOVERY)
    /\ (Shutdown st <= NoShutdown -> StartupPID st = 0 -> FatalError st = false ->
        CountChildren st >= 2 * MaxBackends cfg ->
        canAcceptConnections cfg st = CAC_TOOMANY).
Proof.
  intros cfg st; unfold canAcceptConnections.
  repeat split; intros.
  - destruct (Z.gtb_spec (Shutdown st) NoShutdown); [reflexivity|lia].
  - destruct (Z.gtb_spec (Shutdown st) NoShutdown); [lia|].
    destruct (Z.eqb_spec (StartupPID st) 0); [lia|reflexivity].
  - destruct (Z.gtb_spec (Shutdown st) NoShutdown); [lia|].
    destruct (Z.eqb_spec (StartupPID st) 0); [|lia]; rewrite H1; reflexivity.
  - destruct (Z.gtb_spec (Shutdown st) NoShutdown); [lia|].
    destruct (Z.eqb_spec (StartupPID st) 0); [|lia]; rewrite H1; cbn [negb].
    destruct (Z.geb_spec (CountChildren st) (2 * MaxBackends cfg)); [reflexivity|lia].
Qed.

(** ** Byte-level lemmas *)

Lemma byteZ_range : forall b : byte, 0 <= byteZ b < 256.
Proof.
  intro b; unfold byteZ. pose proof (Byte.to_N_bounded b). lia.
Qed.

Lemma byteZ_byte_of : forall z, 0 <= z < 256 -> byteZ (byte_of z) = z.
Proof.
  intros z Hz; unfold byte_of, byteZ.
  destruct (Byte.of_N (Z.to_N z)) as [b|] eqn:E.
  - apply Byte.to_of_N in E. rewrite E. lia.
  - apply Byte.of_N_None_iff in E. lia.
Qed.

Lemma ntohl_at_range : forall buf off, 0 <= ntohl_at buf off < 4294967296.
Proof.
  intros buf off; unfold ntohl_at.
  pose proof (byteZ_range (buf_at buf off)).
  pose proof (byteZ_range (buf_at buf (off + 1))).
  pose proof (byteZ_range (buf_at buf (off + 2))).
  pose proof (byteZ_range (buf_at buf (off + 3))).
  lia.
Qed.

Lemma htonl_digits : forall n, 0 <= n < 4294967296 ->
  n / 256 / 256 / 256 mod 256 * 16777216 + n / 256 / 256 mod 256 * 65536
  + n / 256 mod 256 * 256 + n mod 256 = n.
Proof.
  intros n Hn.
  pose proof (Z.div_mod n 256 ltac:(lia)).
  pose proof (Z.div_mod (n / 256) 256 ltac:(lia)).
  pose proof (Z.div_mod (n / 256 / 256) 256 ltac:(lia)).
  assert (n / 256 / 256 / 256 < 256).
  { rewrite !Z.div_div by lia. apply Z.div_lt_upper_bound; lia. }
  assert (0 <= n / 256 / 256 / 256)
    by (apply Z.div_pos; [apply Z.div_pos; [apply Z.div_pos|]|]; lia).
  rewrite (Z.mod_small (n / 256 / 256 / 256)) by lia.
  lia.
Qed.

Lemma ntohl_htonl : forall n l, 0 <= n < 4294967296 -> ntohl_at (htonl n ++ l) 0 = n.
Proof.
  intros n l Hn. unfold ntohl_at, htonl, buf_at. cbn [nth app Nat.add].
  rewrite !byteZ_byte_of by (apply Z.mod_pos_bound; lia).
  apply htonl_digits; exact Hn.
Qed.

Lemma ntohl_at_prefix : forall b0 b1 b2 b3 l,
  ntohl_at ([b0; b1; b2; b3] ++ l) 0 = ntohl_at [b0; b1; b2; b3] 0.
Proof. reflexivity. Qed.

Lemma to_int32_small : forall z, 0 <= z < 2147483648 -> to_int32 z = z.
Proof.
  intros z Hz; unfold to_int32.
  rewrite Z.mod_small by lia.
  destruct (Z.geb_spec z 2147483648); lia.
Qed.

(** Reading a well-formed startup message hands its body to
    [process_packet]. *)
Lemma ProcessStartupPacket_body_read :
  forall cfg registry env recur port SSLdone body rest,
    (4 <= length body)%nat ->
    Z.of_nat (length body) + 8 < 2147483648 ->
    Z.of_nat (length body) <= MAX_STARTUP_PACKET_LENGTH cfg ->
    ProcessStartupPacket_body cfg registry env recur port SSLdone
      (startup_packet body ++ rest)
    = process_packet cfg registry env recur port SSLdone body
        (Z.of_nat (length body)) rest.
Proof.
  intros cfg registry env recur port SSLdone body rest H4 Hsm Hmax.
  unfold ProcessStartupPacket_body, startup_packet.
  rewrite <- app_assoc.
  unfold pq_getbytes at 1.
  replace (Nat.leb 4 (length (htonl (Z.of_nat (length body) + 4) ++ body ++ rest)))
    with true by (symmetry; apply Nat.leb_le; simpl; lia).
  assert (Hh : firstn 4 (htonl (Z.of_nat (length body) + 4) ++ body ++ rest)
               = htonl (Z.of_nat (length body) + 4)) by reflexivity.
  assert (Hs : skipn 4 (htonl (Z.of_nat (length body) + 4) ++ body ++ rest)
               = body ++ rest) by reflexivity.
  rewrite Hh, Hs.
  replace (ntohl_at (htonl (Z.of_nat (length body) + 4)) 0)
    with (Z.of_nat (length body) + 4)
    by (rewrite <- (app_nil_r (htonl _)); rewrite ntohl_htonl; lia).
  rewrite (to_int32_small (Z.of_nat (length body) + 4)) by lia.
  replace (Z.of_nat (length body) + 4 - 4) with (Z.of_nat (length body)) by lia.
  rewrite (to_int32_small (Z.of_nat (length body))) by lia.
  replace ((Z.of_nat (length body) <? 4) || (Z.of_nat (length body) >? MAX_STARTUP_PACKET_LENGTH cfg))
    with false
    by (symmetry; apply orb_false_iff; split; [apply Z.ltb_ge | rewrite Z.gtb_ltb; apply Z.ltb_ge]; lia).
  unfold pq_getbytes.
  rewrite Nat2Z.id.
  replace (Nat.leb (length body) (length (body ++ rest))) with true
    by (symmetry; apply Nat.leb_le; rewrite length_app; lia).
  rewrite firstn_app, Nat.sub_diag, firstn_all, skipn_app, Nat.sub_diag, skipn_all.
  simpl. rewrite app_nil_r. reflexivity.
Qed.

(** ** Cancel requests *)

Lemma cancel_lookup_absent : forall x k reg,
  (forall bp, In bp reg -> pid bp <> x) -> cancel_lookup x k reg = [].
Proof.
  intros x k reg; induction reg as [|bp r IH]; intros Hn; [reflexivity|].
  simpl. destruct (Z.eqb_spec (pid bp) x).
  - exfalso. apply (Hn bp); [left; reflexivity | assumption].
  - apply IH. intros bp' Hin. apply Hn. right; exact Hin.
Qed.

Lemma cancel_lookup_to_int32 : forall w k reg,
  Forall (fun bp => 0 < pid bp < 2147483648) reg ->
  0 <= w < 4294967296 ->
  cancel_lookup (to_int32 w) k reg = cancel_lookup w k reg.
Proof.
  intros w k reg Hreg Hw.
  destruct (Z.ltb_spec w 2147483648).
  - rewrite to_int32_small by lia. reflexivity.
  - assert (Hneg : to_int32 w < 0).
    { unfold to_int32. rewrite Z.mod_small by lia.
      destruct (Z.geb_spec w 2147483648); lia. }
    rewrite Forall_forall in Hreg.
    rewrite !cancel_lookup_absent; [reflexivity| |];
      intros bp Hin; specialize (Hreg bp Hin); lia.
Qed.

Lemma cancel_lookup_spec : forall x k reg,
  NoDup (map pid reg) ->
  (cancel_lookup x k reg = [(x, SIGINT)]
     /\ exists bp, In bp reg /\ pid bp = x /\ cancel_key bp = k)
  \/ (cancel_lookup x k reg = []
     /\ ~ exists bp, In bp reg /\ pid bp = x /\ cancel_key bp = k).
Proof.
  intros x k reg; induction reg as [|bp r IH]; intros Hnd.
  - right; split; [reflexivity|]. intros [bp [[] _]].
  - simpl in Hnd. inversion Hnd as [|? ? Hnotin Hnd']; subst.
    simpl. destruct (Z.eqb_spec (pid bp) x) as [Hx|Hx].
    + destruct (Z.eqb_spec (cancel_key bp) k) as [Hk|Hk].
      * left. split; [rewrite Hx; reflexivity|].
        exists bp. split; [left; reflexivity | split; assumption].
      * right. split; [reflexivity|].
        intros [bp' [[Heq|Hin] [Hp Hk']]].
        -- subst bp'. contradiction.
        -- apply Hnotin. rewrite Hx, <- Hp. apply in_map. exact Hin.
    + destruct (IH Hnd') as [[Hl [bp' [Hin [Hp Hk]]]] | [Hl Hne]].
      * left. split; [exact Hl|]. exists bp'. split; [right; exact Hin | split; assumption].
      * right. split; [exact Hl|].
        intros [bp' [[Heq|Hin] [Hp Hk]]].
        -- subst bp'. contradiction.
        -- apply Hne. exists bp'. split; [exact Hin | split; assumption].
Qed.

(** C2: a cancel request (the 16-byte packet: length, [CANCEL_REQUEST_CODE],
    worker pid, cancel key) makes [ProcessStartupPacket] send nothing back
    to the client and send SIGINT to the requested pid exactly when some
    [BackendList] entry has both that pid and that cancel key; otherwise no
    signal at all.  Pids of live backends are unique positive [int]s. *)
Theorem cancel_request_signals_iff_match :
  forall (cfg : Config) (registry : list Backend) (env : SSLEnv) (port : Port)
         (SSLdone : bool) (p0 p1 p2 p3 k0 k1 k2 k3 : byte) (rest : list byte),
    NoDup (map pid registry) ->
    Forall (fun bp => 0 < pid bp < 2147483648) registry ->
    12 <= MAX_STARTUP_PACKET_LENGTH cfg ->
    let wpid := ntohl_at [p0; p1; p2; p3] 0 in
    let wkey := ntohl_at [k0; k1; k2; k3] 0 in
    let o := ProcessStartupPacket cfg registry env port SSLdone
               (startup_packet (htonl CANCEL_REQUEST_CODE
                                ++ [p0; p1; p2; p3; k0; k1; k2; k3]) ++ rest) in
    psp_result o = PSP_CANCEL /\ psp_sent o = []
    /\ ((psp_kills o = [(wpid, SIGINT)]
         /\ exists bp, In bp registry /\ pid bp = wpid /\ cancel_key bp = wkey)
        \/ (psp_kills o = []
         /\ ~ exists bp, In bp registry /\ pid bp = wpid /\ cancel_key bp = wkey)).
Proof.
  intros cfg registry env port SSLdone p0 p1 p2 p3 k0 k1 k2 k3 rest Hnd Hreg Hmax
         wpid wkey o.
  set (body := htonl CANCEL_REQUEST_CODE ++ [p0; p1; p2; p3; k0; k1; k2; k3]).
  assert (Hlen : length body = 12%nat) by reflexivity.
  assert (Hproto : ntohl_at body 0 = CANCEL_REQUEST_CODE).
  { unfold body. apply ntohl_htonl. unfold CANCEL_REQUEST_CODE, PG_PROTOCOL. simpl. lia. }
  assert (Hpk : processCancelRequest registry body = cancel_lookup wpid wkey registry).
  { unfold processCancelRequest.
    replace (ntohl_at body 4) with wpid by reflexivity.
    replace (ntohl_at body 8) with wkey by reflexivity.
    apply cancel_lookup_to_int32; [exact Hreg | apply ntohl_at_range]. }
  assert (Hpp : forall recur, process_packet cfg registry env recur port SSLdone body
                                (Z.of_nat (length body)) rest
                              = mkOut PSP_CANCEL [] (cancel_lookup wpid wkey registry)).
  { intro recur. unfold process_packet. rewrite Hproto, Z.eqb_refl, Hpk. reflexivity. }
  assert (Ho : o = mkOut PSP_CANCEL [] (cancel_lookup wpid wkey registry)).
  { unfold o, ProcessStartupPacket. fold body.
    destruct SSLdone;
      (rewrite ProcessStartupPacket_body_read; [apply Hpp | rewrite Hlen; lia
                                              | rewrite Hlen; simpl; lia
                                              | rewrite Hlen; simpl; lia]). }
  rewrite Ho; simpl.
  split; [reflexivity|]. split; [reflexivity|].
  apply cancel_lookup_spec; exact Hnd.
Qed.

(** ** Protocol version check *)

Lemma unsupported_protocol_spec : forall cfg v,
  unsupported_protocol cfg v = true <->
  PG_PROTOCOL_MAJOR v < PG_PROTOCOL_MAJOR (PG_PROTOCOL_EARLIEST cfg)
  \/ PG_PROTOCOL_MAJOR v > PG_PROTOCOL_MAJOR (PG_PROTOCOL_LATEST cfg)
  \/ (PG_PROTOCOL_MAJOR v = PG_PROTOCOL_MAJOR (PG_PROTOCOL_LATEST cfg)
      /\ PG_PROTOCOL_MINOR v > PG_PROTOCOL_MINOR (PG_PROTOCOL_LATEST cfg)).
Proof.
  intros cfg v; unfold unsupported_protocol.
  rewrite !orb_true_iff, andb_true_iff, Z.ltb_lt, !Z.gtb_lt, Z.eqb_eq.
  split; intros H; lia.
Qed.

Lemma finish_startup_outcomes : forall cfg port f,
  finish_startup cfg port f <> PSP_FATAL FATAL_UNSUPPORTED_PROTOCOL
  /\ (forall p, finish_startup cfg port f = PSP_OK p -> proto p = proto port).
Proof.
  intros cfg port f; unfold finish_startup.
  destruct (f_user f) as [[|u us]|]; [split; [discriminate | discriminate]| |
                                      split; [discriminate | discriminate]].
  destruct (port_canAcceptConnections port); split; try discriminate;
    intros p Hp; inversion Hp; reflexivity.
Qed.

(** The version branch of [process_packet], whatever the nested call. *)
Lemma process_packet_version : forall cfg registry env recur port SSLdone buf len rest,
  let v := ntohl_at buf 0 in
  v <> CANCEL_REQUEST_CODE ->
  (v = NEGOTIATE_SSL_CODE -> SSLdone = true) ->
  let o := process_packet cfg registry env recur port SSLdone buf len rest in
  (psp_result o = PSP_FATAL FATAL_UNSUPPORTED_PROTOCOL <-> unsupported_protocol cfg v = true)
  /\ (forall p, psp_result o = PSP_OK p -> proto p = v).
Proof.
  intros cfg registry env recur port SSLdone buf len rest v Hc Hs o.
  unfold o, process_packet. fold v.
  replace (v =? CANCEL_REQUEST_CODE) with false by (symmetry; apply Z.eqb_neq; exact Hc).
  replace ((v =? NEGOTIATE_SSL_CODE) && negb SSLdone) with false.
  2:{ destruct (Z.eqb_spec v NEGOTIATE_SSL_CODE) as [E|E]; [rewrite (Hs E)|]; reflexivity. }
  destruct (unsupported_protocol cfg v).
  - simpl. split; [tauto | discriminate].
  - destruct (PG_PROTOCOL_MAJOR v >=? 3).
    + destruct (scan_options (Z.to_nat len) buf len 4 no_fields) as [offset f].
      destruct (negb (offset =? len - 1)); simpl.
      * split; [split; discriminate | discriminate].
      * destruct (finish_startup_outcomes cfg (set_proto v port) f) as [H1 H2].
        split; [split; [intro H; contradiction | discriminate]|].
        intros p Hp. apply H2 in Hp. exact Hp.
    + simpl.
      destruct (finish_startup_outcomes cfg (set_proto v port) (legacy_fields buf)) as [H1 H2].
      split; [split; [intro H; contradiction | discriminate]|].
      intros p Hp. apply H2 in Hp. exact Hp.
Qed.

(** C6: a startup packet whose first word is a protocol version (not the
    cancel code, nor the SSL code still to be negotiated) is rejected as
    unsupported exactly when its major is below the earliest, above the
    latest, or equal to the latest with a larger minor; otherwise it is
    not rejected for its version, and a successful startup records it as
    the port's protocol. *)
Theorem startup_version_rejected_iff :
  forall (cfg : Config) (registry : list Backend) (env : SSLEnv) (port : Port)
         (SSLdone : bool) (b0 b1 b2 b3 : byte) (body rest : list byte),
    let v := ntohl_at [b0; b1; b2; b3] 0 in
    v <> CANCEL_REQUEST_CODE ->
    (v = NEGOTIATE_SSL_CODE -> SSLdone = true) ->
    Z.of_nat (length body) + 12 < 2147483648 ->
    Z.of_nat (length body) + 4 <= MAX_STARTUP_PACKET_LENGTH cfg ->
    let o := ProcessStartupPacket cfg registry env port SSLdone
               (startup_packet ([b0; b1; b2; b3] ++ body) ++ rest) in
    (psp_result o = PSP_FATAL FATAL_UNSUPPORTED_PROTOCOL <->
       PG_PROTOCOL_MAJOR v < PG_PROTOCOL_MAJOR (PG_PROTOCOL_EARLIEST cfg)
       \/ PG_PROTOCOL_MAJOR v > PG_PROTOCOL_MAJOR (PG_PROTOCOL_LATEST cfg)
       \/ (PG_PROTOCOL_MAJOR v = PG_PROTOCOL_MAJOR (PG_PROTOCOL_LATEST cfg)
           /\ PG_PROTOCOL_MINOR v > PG_PROTOCOL_MINOR (PG_PROTOCOL_LATEST cfg)))
    /\ (forall p, psp_result o = PSP_OK p -> proto p = v).
Proof.
  intros cfg registry env port SSLdone b0 b1 b2 b3 body rest v Hc Hs Hsm Hmax o.
  rewrite <- unsupported_protocol_spec.
  set (buf := [b0; b1; b2; b3] ++ body).
  assert (Hlen : length buf = (4 + length body)%nat) by reflexivity.
  assert (Hv : ntohl_at buf 0 = v) by (apply ntohl_at_prefix).
  assert (Ho : exists recur,
             o = process_packet cfg registry env recur port SSLdone buf
                   (Z.of_nat (length buf)) rest).
  { unfold o, ProcessStartupPacket. fold buf.
    destruct SSLdone; eexists;
      (rewrite ProcessStartupPacket_body_read by (rewrite Hlen; lia)); reflexivity. }
  destruct Ho as [recur E]. rewrite E.
  rewrite <- Hv. apply process_packet_version; rewrite Hv; assumption.
Qed.

(** ** SSL negotiation *)

(** With [SSLdone] set, [ProcessStartupPacket] sends nothing itself. *)
Lemma body_ssldone_sends_nothing : forall cfg registry env recur port stream,
  psp_sent (ProcessStartupPacket_body cfg registry env recur port true stream) = [].
Proof.
  intros cfg registry env recur port stream.
  unfold ProcessStartupPacket_body.
  destruct (pq_getbytes 4 stream) as [[lenbuf s1]|]; [|reflexivity].
  match goal with |- context [if ?c then _ else _] => destruct c end; [reflexivity|].
  destruct (pq_getbytes _ s1) as [[buf s2]|]; [|reflexivity].
  unfold process_packet.
  destruct (_ =? CANCEL_REQUEST_CODE); [reflexivity|].
  rewrite andb_false_r.
  destruct (unsupported_protocol _ _); [reflexivity|].
  destruct (_ >=? 3); [|reflexivity].
  destruct (scan_options _ _ _ _ _) as [offset f].
  destruct (negb _); reflexivity.
Qed.

Lemma ntohl_NEGOTIATE : ntohl_at (htonl NEGOTIATE_SSL_CODE) 0 = NEGOTIATE_SSL_CODE.
Proof.
  rewrite <- (app_nil_r (htonl NEGOTIATE_SSL_CODE)).
  apply ntohl_htonl. unfold NEGOTIATE_SSL_CODE, PG_PROTOCOL; simpl; lia.
Qed.

(** C7: to an SSL negotiation request the backend answers with the single
    byte 'S' exactly when SSL is compiled in ([USE_SSL]) and enabled and
    the connection is not on a Unix-domain socket, else 'N'; on a
    Unix-domain socket the answer is 'N' and, once sent, the next startup
    packet goes through [ProcessStartupPacket] again (with [SSLdone]). *)
Theorem ssl_negotiation_reply :
  forall (cfg : Config) (registry : list Backend) (env : SSLEnv) (port : Port)
         (rest : list byte),
    4 <= MAX_STARTUP_PACKET_LENGTH cfg ->
    let SSLok := if use_ssl cfg && EnableSSL cfg && negb (laddr_is_unix port)
                 then "S"%byte else "N"%byte in
    let o := ProcessStartupPacket cfg registry env port false
               (startup_packet (htonl NEGOTIATE_SSL_CODE) ++ rest) in
    psp_sent o = [SSLok]
    /\ (SSLok = "S"%byte <->
        use_ssl cfg = true /\ EnableSSL cfg = true /\ laddr_is_unix port = false)
    /\ (laddr_is_unix port = true ->
        SSLok = "N"%byte
        /\ (send_ok env = true ->
            o = prepend_sent ["N"%byte]
                  (ProcessStartupPacket cfg registry env
                     (set_proto NEGOTIATE_SSL_CODE port) true rest))).
Proof.
  intros cfg registry env port rest Hmax SSLok o.
  assert (Ho : o = process_packet cfg registry env
                     (fun p s => ProcessStartupPacket_body cfg registry env
                                   (fun _ _ => mkOut PSP_ERROR [] []) p true s)
                     port false (htonl NEGOTIATE_SSL_CODE) 4 rest).
  { unfold o, ProcessStartupPacket.
    rewrite ProcessStartupPacket_body_read by (simpl; lia). reflexivity. }
  assert (Hpp : forall recur,
             process_packet cfg registry env recur port false (htonl NEGOTIATE_SSL_CODE) 4 rest
             = let port' := set_proto NEGOTIATE_SSL_CODE port in
               if negb (send_ok env) then mkOut PSP_ERROR [SSLok] []
               else if use_ssl cfg && Byte.eqb SSLok "S"%byte && negb (secure_open_ok env)
               then mkOut PSP_ERROR [SSLok] []
               else prepend_sent [SSLok] (recur port' rest)).
  { intro recur. unfold process_packet. rewrite ntohl_NEGOTIATE.
    replace (NEGOTIATE_SSL_CODE =? CANCEL_REQUEST_CODE) with false by reflexivity.
    rewrite Z.eqb_refl. reflexivity. }
  rewrite Ho, Hpp. cbv zeta.
  split; [|split].
  - destruct (negb (send_ok env)); [reflexivity|].
    destruct (use_ssl cfg && Byte.eqb SSLok "S"%byte && negb (secure_open_ok env));
      [reflexivity|].
    unfold prepend_sent; simpl. rewrite body_ssldone_sends_nothing. reflexivity.
  - unfold SSLok.
    destruct (use_ssl cfg), (EnableSSL cfg), (laddr_is_unix port); simpl;
      intuition congruence.
  - intros Hu. assert (HN : SSLok = "N"%byte)
      by (unfold SSLok; rewrite Hu, andb_false_r; reflexivity).
    split; [exact HN|]. intros Hs. rewrite Hs, HN. simpl.
    rewrite andb_false_r. reflexivity.
Qed.

(** ** Layout of protocol 3 packets *)

(** C9 (failing input): a protocol 3.0 packet "user\0alice\0x" has no
    empty-name terminator: its last byte is 'x'.  The scan stops at the
    one-byte name "x" ("missing value, will complain below"), leaving
    [offset = len - 1], so the layout check does not complain and the
    startup succeeds with user and database "alice". *)
Theorem startup_packet_trailing_byte_accepted :
  let body := htonl (PG_PROTOCOL 3 0) ++ bytes "user"%string ++ [x00]
              ++ bytes "alice"%string ++ [x00] ++ ["x"%byte] in
  last body x00 = "x"%byte
  /\ psp_result (ProcessStartupPacket default_config [] (mkSSLEnv true true)
                   (new_port false CAC_OK) false (startup_packet body))
     = PSP_OK (mkPort false CAC_OK (PG_PROTOCOL 3 0)
                 (Some (bytes "alice"%string)) (Some (bytes "alice"%string)) None []).
Proof. split; vm_compute; reflexivity. Qed.

(** ** Forking a backend *)

Lemma fork_succeeds : forall st,
  hd_error (forks st) <> Some false ->
  fork st = Ok (next_pid st) (set_os (next_pid st + 1) (tl (forks st)) st).
Proof.
  intros st H; unfold fork.
  destruct (forks st) as [|[|] r]; [reflexivity | reflexivity | contradiction H; reflexivity].
Qed.

Lemma fork_fails : forall st,
  hd_error (forks st) = Some false ->
  fork st = Ok (-1) (set_os (next_pid st) (tl (forks st)) st).
Proof.
  intros st H; unfold fork.
  destruct (forks st) as [|[|] r]; [discriminate | discriminate | reflexivity].
Qed.

(** C8: [BackendStartup] leaves [BackendList] unchanged when [malloc] fails
    (no fork either) or when [fork] fails (then at most one error packet
    is sent, none unless the socket could be set non-blocking); the
    postmaster goes on in every case; only a successful fork links the new
    entry, with the child's pid and its cancel key, into [BackendList]. *)
Theorem BackendStartup_registry_atomic :
  forall (cfg : Config) (ci : ConnInput) (st : PMState),
    (ci_malloc_ok ci = false ->
       BackendStartup cfg ci st = Ok (mkBSOut STATUS_ERROR None []) st)
    /\ (ci_malloc_ok ci = true -> hd_error (forks st) = Some false ->
        exists st',
          BackendStartup cfg ci st
            = Ok (mkBSOut STATUS_ERROR None (report_fork_failure_to_client ci)) st'
          /\ BackendList st' = BackendList st
          /\ (length (report_fork_failure_to_client ci) <= 1)%nat
          /\ (ci_noblock_ok ci = false -> report_fork_failure_to_client ci = []))
    /\ (ci_malloc_ok ci = true -> hd_error (forks st) <> Some false -> 0 <= next_pid st ->
        exists st',
          BackendStartup cfg ci st
            = Ok (mkBSOut STATUS_OK (Some (next_pid st, canAcceptConnections cfg st)) []) st'
          /\ BackendList st' = mkBackend (next_pid st) (ci_random ci) :: BackendList st).
Proof.
  intros cfg ci st. split; [|split].
  - intros Hm. unfold BackendStartup. rewrite Hm. reflexivity.
  - intros Hm Hf. unfold BackendStartup. rewrite Hm. cbn [negb].
    unfold bind at 1, gets. unfold bind at 1. rewrite fork_fails by exact Hf.
    cbn. eexists. split; [reflexivity|].
    split; [reflexivity|].
    unfold report_fork_failure_to_client.
    destruct (ci_noblock_ok ci); simpl; split; auto; discriminate.
  - intros Hm Hf Hp. unfold BackendStartup. rewrite Hm. cbn [negb].
    unfold bind at 1, gets. unfold bind at 1. rewrite fork_succeeds by exact Hf.
    replace (next_pid st <? 0) with false by (symmetry; apply Z.ltb_ge; exact Hp).
    eexists. split; reflexivity.
Qed.

(** The connection-level view: the packet is read in the forked child. *)
Lemma handle_connection_forked : forall cfg ci laddr env stream st,
  ci_malloc_ok ci = true -> hd_error (forks st) <> Some false -> 0 <= next_pid st ->
  exists st',
    handle_connection cfg ci laddr env stream st
    = Ok (mkBSOut STATUS_OK (Some (next_pid st, canAcceptConnections cfg st)) [],
          Some (ProcessStartupPacket cfg (BackendList st) env
                  (new_port laddr (canAcceptConnections cfg st)) false stream)) st'
    /\ BackendList st' = mkBackend (next_pid st) (ci_random ci) :: BackendList st.
Proof.
  intros cfg ci laddr env stream st Hm Hf Hp.
  destruct (proj2 (proj2 (BackendStartup_registry_atomic cfg ci st)) Hm Hf Hp)
    as [st' [E Hl]].
  exists st'. unfold handle_connection, bind at 1, gets. unfold bind at 1.
  rewrite E. split; [reflexivity | exact Hl].
Qed.

(** ** Unsupported protocol versions and the registry *)

(** C5 (counterexample): with no backend running, a client sending a
    version 4.0 startup packet gets the unsupported-protocol rejection, but
    from a backend forked for it before the packet was read: pid 100 is in
    [BackendList] afterwards. *)
Lemma unsupported_protocol_after_fork_example :
  let st := mkPM 0 0 0 0 0 0 false [] 100 [] [] in
  handle_connection default_config (mkConnInput 99 true true []) false
    (mkSSLEnv true true) (startup_packet (htonl (PG_PROTOCOL 4 0))) st
  = Ok (mkBSOut STATUS_OK (Some (100, CAC_OK)) [],
        Some (mkOut (PSP_FATAL FATAL_UNSUPPORTED_PROTOCOL) [] []))
       (mkPM 0 0 0 0 0 0 false [mkBackend 100 99] 101 [] [])
  /\ BackendList (mkPM 0 0 0 0 0 0 false [mkBackend 100 99] 101 [] []) <> BackendList st.
Proof. split; [vm_compute; reflexivity | discriminate]. Qed.

(** C5 (as the code does it): for a startup packet whose major version is
    above the latest supported, the connection's backend has already been
    forked and linked into [BackendList] (when [malloc] and [fork]
    succeed) before it reads the packet, and it then answers with the
    unsupported-protocol rejection. *)
Theorem unsupported_protocol_rejected_by_forked_backend :
  forall (cfg : Config) (ci : ConnInput) (laddr : bool) (env : SSLEnv) (st : PMState)
         (b0 b1 b2 b3 : byte) (body rest : list byte),
    let v := ntohl_at [b0; b1; b2; b3] 0 in
    PG_PROTOCOL_MAJOR v > PG_PROTOCOL_MAJOR (PG_PROTOCOL_LATEST cfg) ->
    v <> CANCEL_REQUEST_CODE -> v <> NEGOTIATE_SSL_CODE ->
    Z.of_nat (length body) + 12 < 2147483648 ->
    Z.of_nat (length body) + 4 <= MAX_STARTUP_PACKET_LENGTH cfg ->
    ci_malloc_ok ci = true -> hd_error (forks st) <> Some false -> 0 <= next_pid st ->
    exists st',
      handle_connection cfg ci laddr env
        (startup_packet ([b0; b1; b2; b3] ++ body) ++ rest) st
      = Ok (mkBSOut STATUS_OK (Some (next_pid st, canAcceptConnections cfg st)) [],
            Some (mkOut (PSP_FATAL FATAL_UNSUPPORTED_PROTOCOL) [] [])) st'
      /\ BackendList st' = mkBackend (next_pid st) (ci_random ci) :: BackendList st.
Proof.
  intros cfg ci laddr env st b0 b1 b2 b3 body rest v Hmaj Hc Hn Hsm Hmax Hm Hf Hp.
  destruct (handle_connection_forked cfg ci laddr env
              (startup_packet ([b0; b1; b2; b3] ++ body) ++ rest) st Hm Hf Hp)
    as [st' [E Hl]].
  exists st'. rewrite E. split; [|exact Hl].
  do 3 f_equal.
  unfold ProcessStartupPacket.
  rewrite ProcessStartupPacket_body_read by (simpl; lia).
  unfold process_packet.
  rewrite ntohl_at_prefix. fold v.
  replace (v =? CANCEL_REQUEST_CODE) with false by (symmetry; apply Z.eqb_neq; exact Hc).
  replace (v =? NEGOTIATE_SSL_CODE) with false by (symmetry; apply Z.eqb_neq; exact Hn).
  replace (unsupported_protocol cfg v) with true
    by (symmetry; apply unsupported_protocol_spec; right; left; exact Hmaj).
  reflexivity.
Qed.

(** ** Startup process failure *)

(** C1 (counterexample): in crash recovery ([FatalError] set, a new
    startup process 7 running), the startup process exiting with status
    256 (exit code 1) makes the postmaster exit with code 1. *)
Lemma startup_failure_in_recovery_exits :
  exists s, reaper default_config [(7, 256)] (mkPM 0 7 0 0 0 0 true [] 100 [] [])
            = Exited 1 s.
Proof. eexists. vm_compute. reflexivity. Qed.

Lemma bind_exited : forall A B (m : PM A) (k : A -> PM B) s c s',
  m s = Exited c s' -> bind m k s = Exited c s'.
Proof. intros A B m k s c s' E. unfold bind. rewrite E. reflexivity. Qed.

Lemma reap_child_startup_failure : forall cfg st exitstatus,
  StartupPID st <> 0 -> exitstatus <> 0 ->
  reap_child cfg (StartupPID st) exitstatus st = Exited 1 (set_StartupPID 0 st).
Proof.
  intros cfg st exitstatus Hsp Hx.
  unfold reap_child. unfold bind at 1, gets at 1. cbv beta.
  replace (negb (StartupPID st =? 0) && (StartupPID st =? StartupPID st)) with true
    by (rewrite Z.eqb_refl; destruct (Z.eqb_spec (StartupPID st) 0);
        [contradiction | reflexivity]).
  unfold bind at 1, modify at 1. cbv beta iota.
  replace (negb (exitstatus =? 0)) with true
    by (destruct (Z.eqb_spec exitstatus 0); [contradiction | reflexivity]).
  reflexivity.
Qed.

(** C1 (as the code does it): whenever the startup process exits with a
    nonzero status, in the first startup or in crash recovery, [reaper]
    makes the postmaster exit with code 1; no new startup process is
    launched. *)
Theorem startup_failure_always_exits :
  forall (cfg : Config) (st : PMState) (exitstatus : Z) (more : list (Z * Z)),
    StartupPID st <> 0 -> exitstatus <> 0 ->
    reaper cfg ((StartupPID st, exitstatus) :: more) st
    = Exited 1 (set_StartupPID 0 st).
Proof.
  intros cfg st exitstatus more Hsp Hx.
  unfold reaper. apply bind_exited. cbn [iter_list]. apply bind_exited.
  apply reap_child_startup_failure; assumption.
Qed.

(** ** The shutdown level never decreases *)

Create HintDb mono.

Lemma mono_ret : forall A (a : A), mono (ret a).
Proof. intros A a s; simpl; lia. Qed.

Lemma mono_gets : forall A (f : PMState -> A), mono (gets f).
Proof. intros A f s; simpl; lia. Qed.

Lemma mono_exit : forall A c, mono (@ExitPostmaster A c).
Proof. intros A c s; simpl; lia. Qed.

Lemma mono_modify : forall f, (forall s, Shutdown (f s) = Shutdown s) -> mono (modify f).
Proof. intros f Hf s; simpl; rewrite Hf; lia. Qed.

Lemma mono_kill : forall p sg, mono (kill p sg).
Proof. intros p sg; apply mono_modify; reflexivity. Qed.

Lemma mono_fork : mono fork.
Proof. intros s; unfold fork; destruct (forks s) as [|[|] r]; simpl; lia. Qed.

Lemma mono_bind : forall A B (m : PM A) (k : A -> PM B),
  mono m -> (forall a, mono (k a)) -> mono (bind m k).
Proof.
  intros A B m k Hm Hk s. unfold bind. specialize (Hm s).
  destruct (m s) as [a s'|c s']; simpl in *; [|exact Hm].
  specialize (Hk a s'). lia.
Qed.

Lemma mono_when : forall b m, mono m -> mono (when b m).
Proof. intros b m Hm; destruct b; [exact Hm | apply mono_ret]. Qed.

Lemma mono_iter_list : forall T (f : T -> PM unit) l,
  (forall x, mono (f x)) -> mono (iter_list f l).
Proof.
  intros T f l Hf; induction l as [|x r IH]; simpl;
    [apply mono_ret | apply mono_bind; [apply Hf | intros; exact IH]].
Qed.

#[local] Hint Resolve mono_ret mono_gets mono_exit mono_kill mono_fork mono_when
  mono_iter_list : mono.
#[local] Hint Extern 1 (mono (modify _)) => apply mono_modify; reflexivity : mono.

(** Walk through a monadic program built from the primitives above. *)
Ltac mono_solve :=
  repeat match goal with
  | |- mono (bind _ _) => apply mono_bind; [| intro]
  | |- mono (if ?b then _ else _) => destruct b
  | |- mono (match ?x with _ => _ end) => destruct x
  | |- forall _, _ => intro
  | |- mono (iter_list _ _) => apply mono_iter_list
  | |- mono (when _ _) => apply mono_when
  end; auto with mono.

Lemma mono_StartChildProcess : forall x, mono (StartChildProcess x).
Proof. intros x; unfold StartChildProcess; mono_solve. Qed.

Lemma mono_start_aux : mono start_aux.
Proof. unfold start_aux; mono_solve. Qed.

#[local] Hint Resolve mono_StartChildProcess mono_start_aux : mono.
#[local] Hint Unfold StartupDataBase StartBackgroundWriter pgarch_start pgstat_start
  SysLogger_Start : mono.

Lemma mono_SignalChildren : forall sg, mono (SignalChildren sg).
Proof. intros sg; unfold SignalChildren; mono_solve. Qed.

Lemma mono_shutdown_sequence : mono shutdown_sequence.
Proof.
  unfold shutdown_sequence, StartBackgroundWriter; mono_solve.
Qed.

Lemma mono_HandleChildCrash : forall cfg p x, mono (HandleChildCrash cfg p x).
Proof. intros; unfold HandleChildCrash; mono_solve. Qed.

Lemma mono_CleanupBackend : forall cfg p x, mono (CleanupBackend cfg p x).
Proof. intros; unfold CleanupBackend; mono_solve; apply mono_HandleChildCrash. Qed.

#[local] Hint Resolve mono_SignalChildren mono_shutdown_sequence mono_HandleChildCrash
  mono_CleanupBackend : mono.

Lemma mono_reap_child : forall cfg p x, mono (reap_child cfg p x).
Proof.
  intros; unfold reap_child, StartBackgroundWriter, pgarch_start, pgstat_start,
    SysLogger_Start; mono_solve.
Qed.

Lemma mono_reaper : forall cfg exits, mono (reaper cfg exits).
Proof.
  intros; unfold reaper, StartupDataBase; mono_solve; apply mono_reap_child.
Qed.

Lemma mono_raise_guarded : forall v (k : PM unit),
  mono k ->
  mono (sd <- gets Shutdown ;; if sd >=? v then ret tt else (modify (set_Shutdown v) ;; k)).
Proof.
  intros v k Hk s. unfold bind at 1, gets. cbv beta iota.
  destruct (Z.geb_spec (Shutdown s) v) as [H|H]; [simpl; lia|].
  unfold bind, modify. specialize (Hk (set_Shutdown v s)).
  simpl in Hk |- *. lia.
Qed.

Lemma mono_pmdie : forall sg, mono (pmdie sg).
Proof.
  intros sg; destruct sg; unfold pmdie;
    try (apply mono_raise_guarded; mono_solve); mono_solve.
Qed.

Lemma mono_SIGHUP_handler : mono SIGHUP_handler.
Proof. unfold SIGHUP_handler; mono_solve. Qed.

Lemma mono_sigusr1_handler : forall a b, mono (sigusr1_handler a b).
Proof. intros; unfold sigusr1_handler; mono_solve. Qed.

Lemma mono_BackendStartup : forall cfg ci, mono (BackendStartup cfg ci).
Proof. intros; unfold BackendStartup; mono_solve. Qed.

Lemma mono_ServerLoop_maintenance : forall cfg, mono (ServerLoop_maintenance cfg).
Proof.
  intros; unfold ServerLoop_maintenance, SysLogger_Start, StartBackgroundWriter,
    pgarch_start, pgstat_start; mono_solve.
Qed.

Lemma mono_step : forall cfg ev, mono (step cfg ev).
Proof.
  intros cfg ev; destruct ev as [sg|exits|a b|ci|]; simpl.
  - destruct sg; first [apply mono_SIGHUP_handler | apply mono_pmdie].
  - apply mono_reaper.
  - apply mono_sigusr1_handler.
  - apply mono_bind; [apply mono_BackendStartup | intros; apply mono_ret].
  - apply mono_ServerLoop_maintenance.
Qed.

Lemma pmdie_SIGTERM_ignored : forall st,
  Shutdown st >= SmartShutdown -> pmdie SIGTERM st = Ok tt st.
Proof.
  intros st H. unfold pmdie, bind at 1, gets. cbv beta iota.
  destruct (Z.geb_spec (Shutdown st) SmartShutdown); [reflexivity | lia].
Qed.

Lemma pmdie_SIGINT_ignored : forall st,
  Shutdown st >= FastShutdown -> pmdie SIGINT st = Ok tt st.
Proof.
  intros st H. unfold pmdie, bind at 1, gets. cbv beta iota.
  destruct (Z.geb_spec (Shutdown st) FastShutdown); [reflexivity | lia].
Qed.

(** C4: over every run of the postmaster (signals, child exits,
    connections, main-loop iterations, in any order) the shutdown level
    never decreases; a smart shutdown request at level Smart or above, and
    a fast shutdown request at level Fast, change nothing at all. *)
Theorem shutdown_level_monotonic :
  forall (cfg : Config) (evs : list event) (st : PMState),
    Shutdown st <= Shutdown (final_state (run cfg evs st))
    /\ (Shutdown st >= SmartShutdown -> step cfg (EvSignal SIGTERM) st = Ok tt st)
    /\ (Shutdown st >= FastShutdown -> step cfg (EvSignal SIGINT) st = Ok tt st).
Proof.
  intros cfg evs st. split; [|split].
  - apply mono_iter_list. intros; apply mono_step.
  - apply pmdie_SIGTERM_ignored.
  - apply pmdie_SIGINT_ignored.
Qed.

(** ** Witnesses: the theorems' hypotheses hold on concrete inputs *)

(** Worker 42 with cancel key 0xDEADBEEF, cancelled with the right key. *)
Lemma cancel_request_witness :
  NoDup (map pid [mkBackend 42 3735928559])
  /\ Forall (fun bp => 0 < pid bp < 2147483648) [mkBackend 42 3735928559]
  /\ 12 <= MAX_STARTUP_PACKET_LENGTH default_config
  /\ psp_kills (ProcessStartupPacket default_config [mkBackend 42 3735928559]
                  (mkSSLEnv true true) (new_port false CAC_OK) false
                  (startup_packet (htonl CANCEL_REQUEST_CODE
                     ++ [x00; x00; x00; x2a; xde; xad; xbe; xef]) ++ []))
     = [(42, SIGINT)].
Proof.
  assert (H1 : NoDup (map pid [mkBackend 42 3735928559]))
    by (simpl; constructor; [intros [] | constructor]).
  assert (H2 : Forall (fun bp => 0 < pid bp < 2147483648) [mkBackend 42 3735928559])
    by (constructor; [simpl; lia | constructor]).
  assert (H3 : 12 <= MAX_STARTUP_PACKET_LENGTH default_config) by (simpl; lia).
  split; [exact H1|]. split; [exact H2|]. split; [exact H3|].
  destruct (cancel_request_signals_iff_match default_config [mkBackend 42 3735928559]
              (mkSSLEnv true true) (new_port false CAC_OK) false
              x00 x00 x00 x2a xde xad xbe xef [] H1 H2 H3) as [_ [_ [[Hk _]|[_ Hn]]]].
  - exact Hk.
  - exfalso. apply Hn. exists (mkBackend 42 3735928559).
    split; [left; reflexivity | split; reflexivity].
Defined.

(** A version 4.0 packet: rejected. *)
Lemma startup_version_witness :
  ntohl_at [x00; x04; x00; x00] 0 <> CANCEL_REQUEST_CODE
  /\ (ntohl_at [x00; x04; x00; x00] 0 = NEGOTIATE_SSL_CODE -> false = true)
  /\ Z.of_nat (length (@nil byte)) + 12 < 2147483648
  /\ Z.of_nat (length (@nil byte)) + 4 <= MAX_STARTUP_PACKET_LENGTH default_config
  /\ psp_result (ProcessStartupPacket default_config [] (mkSSLEnv true true)
                   (new_port false CAC_OK) false
                   (startup_packet ([x00; x04; x00; x00] ++ []) ++ []))
     = PSP_FATAL FATAL_UNSUPPORTED_PROTOCOL.
Proof.
  assert (H1 : ntohl_at [x00; x04; x00; x00] 0 <> CANCEL_REQUEST_CODE)
    by (vm_compute; discriminate).
  assert (H2 : ntohl_at [x00; x04; x00; x00] 0 = NEGOTIATE_SSL_CODE -> false = true)
    by (vm_compute; discriminate).
  assert (H3 : Z.of_nat (length (@nil byte)) + 12 < 2147483648) by (simpl; lia).
  assert (H4 : Z.of_nat (length (@nil byte)) + 4 <= MAX_STARTUP_PACKET_LENGTH default_config)
    by (simpl; lia).
  split; [exact H1|]. split; [exact H2|]. split; [exact H3|]. split; [exact H4|].
  apply (proj1 (startup_version_rejected_iff default_config [] (mkSSLEnv true true)
                  (new_port false CAC_OK) false x00 x04 x00 x00 [] [] H1 H2 H3 H4)).
  right; left. vm_compute. reflexivity.
Defined.

(** SSL negotiation on a Unix-domain socket, SSL compiled in and enabled. *)
Lemma ssl_negotiation_witness :
  4 <= MAX_STARTUP_PACKET_LENGTH default_config
  /\ psp_sent (ProcessStartupPacket default_config [] (mkSSLEnv true true)
                 (new_port true CAC_OK) false
                 (startup_packet (htonl NEGOTIATE_SSL_CODE) ++ []))
     = ["N"%byte].
Proof.
  assert (H : 4 <= MAX_STARTUP_PACKET_LENGTH default_config) by (simpl; lia).
  split; [exact H|].
  exact (proj1 (ssl_negotiation_reply default_config [] (mkSSLEnv true true)
                  (new_port true CAC_OK) [] H)).
Defined.

(** A 4.0 packet on a fresh postmaster: forked as pid 100, then rejected. *)
Lemma unsupported_protocol_witness :
  PG_PROTOCOL_MAJOR (ntohl_at [x00; x04; x00; x00] 0)
    > PG_PROTOCOL_MAJOR (PG_PROTOCOL_LATEST default_config)
  /\ exists st',
      handle_connection default_config (mkConnInput 99 true true []) false
        (mkSSLEnv true true) (startup_packet ([x00; x04; x00; x00] ++ []) ++ [])
        (mkPM 0 0 0 0 0 0 false [] 100 [] [])
      = Ok (mkBSOut STATUS_OK (Some (100, CAC_OK)) [],
            Some (mkOut (PSP_FATAL FATAL_UNSUPPORTED_PROTOCOL) [] [])) st'
      /\ BackendList st' = [mkBackend 100 99].
Proof.
  assert (H1 : PG_PROTOCOL_MAJOR (ntohl_at [x00; x04; x00; x00] 0)
               > PG_PROTOCOL_MAJOR (PG_PROTOCOL_LATEST default_config))
    by (vm_compute; reflexivity).
  split; [exact H1|].
  apply (unsupported_protocol_rejected_by_forked_backend default_config
           (mkConnInput 99 true true []) false (mkSSLEnv true true)
           (mkPM 0 0 0 0 0 0 false [] 100 [] []) x00 x04 x00 x00 [] [] H1).
  - vm_compute; discriminate.
  - vm_compute; discriminate.
  - simpl; lia.
  - simpl; lia.
  - reflexivity.
  - simpl; discriminate.
  - simpl; lia.
Defined.

(** Crash recovery with startup process 7 failing: the postmaster exits. *)
Lemma startup_failure_witness :
  StartupPID (mkPM 0 7 0 0 0 0 true [] 100 [] []) <> 0 /\ 256 <> 0
  /\ reaper default_config [(7, 256)] (mkPM 0 7 0 0 0 0 true [] 100 [] [])
     = Exited 1 (set_StartupPID 0 (mkPM 0 7 0 0 0 0 true [] 100 [] [])).
Proof.
  assert (H1 : StartupPID (mkPM 0 7 0 0 0 0 true [] 100 [] []) <> 0) by (simpl; lia).
  assert (H2 : 256 <> 0) by lia.
  split; [exact H1|]. split; [exact H2|].
  exact (startup_failure_always_exits default_config (mkPM 0 7 0 0 0 0 true [] 100 [] [])
           256 [] H1 H2).
Defined.

(** * Further properties of the postmaster *)

(** ** Splitting option strings *)

Lemma isspace_not_nul : forall b, isspace b = true -> is_nul b = false.
Proof.
  intros b H. unfold is_nul. destruct (Byte.eqb b x00) eqn:E; [|reflexivity].
  apply Byte.byte_dec_bl in E. subst b. discriminate H.
Qed.

(** The C string starting at [s], cons by cons. *)
Lemma cstr_cons : forall b r,
  firstn (cstrlen (b :: r)) (b :: r)
  = if is_nul b then [] else b :: firstn (cstrlen r) r.
Proof. intros b r. unfold is_nul. simpl. destruct (Byte.eqb b x00); reflexivity. Qed.

Lemma skip_space_facts : forall s,
  (length (skip_space s) <= length s)%nat
  /\ (cstrlen (skip_space s) <= cstrlen s)%nat
  /\ filter (fun b => negb (isspace b)) (firstn (cstrlen (skip_space s)) (skip_space s))
     = filter (fun b => negb (isspace b)) (firstn (cstrlen s) s)
  /\ match skip_space s with [] => True | c :: _ => isspace c = false end.
Proof.
  induction s as [|b r IH]; [simpl; repeat split; lia|].
  simpl skip_space. destruct (isspace b) eqn:Hb.
  - destruct IH as (H1 & H2 & H3 & H4).
    pose proof (isspace_not_nul b Hb) as Hn.
    rewrite (cstr_cons b r), Hn. unfold is_nul in Hn. simpl cstrlen. rewrite Hn.
    simpl filter. rewrite Hb. simpl negb. cbv iota.
    repeat split; simpl; try lia; assumption.
  - repeat split; try lia. exact Hb.
Qed.

Lemma token_facts : forall s,
  s = take_token s ++ drop_token s
  /\ forallb (fun b => negb (is_nul b || isspace b)) (take_token s) = true
  /\ match drop_token s with [] => True | d :: _ => (is_nul d || isspace d) = true end
  /\ cstrlen s = (length (take_token s) + cstrlen (drop_token s))%nat
  /\ firstn (cstrlen s) s
     = take_token s ++ firstn (cstrlen (drop_token s)) (drop_token s).
Proof.
  induction s as [|b r IH]; [simpl; repeat split; reflexivity|].
  destruct IH as (H1 & H2 & H3 & H4 & H5).
  simpl take_token; simpl drop_token.
  destruct (is_nul b || isspace b) eqn:E.
  - repeat split; simpl; try rewrite E; auto.
  - apply orb_false_iff in E. destruct E as [En Es].
    rewrite (cstr_cons b r), En.
    unfold is_nul in En. simpl cstrlen. rewrite En.
    repeat split.
    + simpl. rewrite <- H1. reflexivity.
    + simpl. unfold is_nul. rewrite En, Es. simpl. exact H2.
    + exact H3.
    + simpl. rewrite H4. reflexivity.
    + simpl. rewrite H5. reflexivity.
Qed.

Lemma filter_all_kept : forall (f : byte -> bool) l,
  forallb f l = true -> filter f l = l.
Proof.
  intros f l H; induction l as [|b r IH]; [reflexivity|].
  simpl in *. apply andb_true_iff in H. destruct H as [Hb Hr].
  rewrite Hb, IH by exact Hr. reflexivity.
Qed.

Lemma forallb_token_space : forall l,
  forallb (fun b => negb (is_nul b || isspace b)) l = true ->
  forallb (fun b => negb (isspace b)) l = true.
Proof.
  intros l; induction l as [|b r IH]; [reflexivity|].
  simpl. intros H. apply andb_true_iff in H. destruct H as [Hb Hr].
  rewrite IH by exact Hr. destruct (isspace b), (is_nul b); simpl in *; congruence.
Qed.

(** The invariant of the [split_opts] loop. *)
Lemma split_opts_loop_spec : forall n s, (length s <= n)%nat ->
  Forall (fun t => t <> [] /\ forallb (fun b => negb (is_nul b || isspace b)) t = true)
         (split_opts_loop n s)
  /\ concat (split_opts_loop n s)
     = filter (fun b => negb (isspace b)) (firstn (cstrlen s) s)
  /\ (2 * length (split_opts_loop n s) <= cstrlen s + 1)%nat.
Proof.
  induction n as [|n IH]; intros s Hlen.
  { destruct s; [|simpl in Hlen; lia]. simpl. repeat split; auto. }
  destruct s as [|b r]; [simpl; repeat split; auto; lia|].
  cbn [split_opts_loop].
  destruct (is_nul b) eqn:Hb.
  { rewrite (cstr_cons b r), Hb. unfold is_nul in Hb. simpl cstrlen. rewrite Hb.
    simpl. repeat split; auto; lia. }
  destruct (skip_space_facts (b :: r)) as (S1 & S2 & S3 & S4).
  rewrite <- S3.
  destruct (skip_space (b :: r)) as [|c t] eqn:Hs1.
  { cbn -[cstrlen]. repeat split; auto; lia. }
  destruct (is_nul c) eqn:Hc.
  { rewrite (cstr_cons c t), Hc. cbn -[cstrlen]. repeat split; auto; lia. }
  destruct (token_facts (c :: t)) as (T1 & T2 & T3 & T4 & T5).
  assert (Htok : take_token (c :: t) <> []).
  { simpl. rewrite Hc, S4. discriminate. }
  assert (Hns := forallb_token_space _ T2).
  assert (Hpos : (1 <= length (take_token (c :: t)))%nat).
  { destruct (take_token (c :: t)); [congruence | simpl; lia]. }
  rewrite T5. rewrite T4 in S2.
  remember (cstrlen (b :: r)) as m eqn:Hm.
  remember (take_token (c :: t)) as tok eqn:Htk.
  assert (Hlen1 : (length tok + length (drop_token (c :: t)) <= S n)%nat).
  { rewrite <- length_app, <- T1. lia. }
  revert T3 Hlen1. destruct (drop_token (c :: t)) as [|d s3] eqn:Hd; intros T3 Hlen1;
    cbv beta iota in T3.
  { simpl in S2 |- *. rewrite app_nil_r, filter_all_kept by exact Hns.
    repeat split; auto. lia. }
  destruct (is_nul d) eqn:Hdn.
  { rewrite (cstr_cons d s3), Hdn. simpl. rewrite !app_nil_r, filter_all_kept by exact Hns.
    unfold is_nul in Hdn. simpl cstrlen in S2. rewrite Hdn in S2.
    repeat split; auto. simpl. lia. }
  assert (Hds : isspace d = true) by exact T3.
  rewrite (cstr_cons d s3), Hdn.
  unfold is_nul in Hdn. simpl cstrlen in S2. rewrite Hdn in S2.
  assert (Hlen3 : (length s3 <= n)%nat) by (simpl in Hlen1; lia).
  destruct (IH s3 Hlen3) as (I1 & I2 & I3).
  repeat split.
  - constructor; [split; assumption | exact I1].
  - simpl. rewrite I2, filter_app, (filter_all_kept _ tok Hns).
    simpl. rewrite Hds. reflexivity.
  - simpl length. lia.
Qed.


Lemma half_bound : forall k l : nat, (2 * k <= l + 1)%nat ->
  Z.of_nat k <= (Z.of_nat l + 1) / 2.
Proof. intros k l H. apply Z.div_le_lower_bound; lia. Qed.

(** The bound [BackendRun] relies on: [split_opts] adds at most
    [(strlen(s) + 1) / 2] entries to [argv]. *)
Theorem split_opts_count_bound : forall argv s,
  Z.of_nat (length (split_opts argv (Some s)))
  <= Z.of_nat (length argv) + (Z.of_nat (cstrlen s) + 1) / 2.
Proof.
  intros argv s. simpl split_opts. rewrite length_app.
  destruct (split_opts_loop_spec (length s) s (le_n _)) as (_ & _ & H3).
  pose proof (half_bound _ _ H3). lia.
Qed.

(** [BackendRun] never writes past the argument vector it allocates: the
    [ac] entries and the terminating NULL fit in the [maxac] slots
    ([Assert(ac < maxac)] holds). *)
Theorem BackendRun_argv_fits : forall debug_flag ExtraOptions port,
  let '(maxac, av) := BackendRun_argv debug_flag ExtraOptions port in
  Z.of_nat (length av) < maxac.
Proof.
  intros debug_flag ExtraOptions port. unfold BackendRun_argv.
  set (av1 := if debug_flag >? 0 then _ else _).
  assert (Hav1 : (length av1 <= 2)%nat) by (unfold av1; destruct (debug_flag >? 0); simpl; lia).
  pose proof (split_opts_count_bound av1 ExtraOptions) as HE.
  set (av2 := split_opts av1 (Some ExtraOptions)) in *.
  set (db := match database_name port with Some d => d | None => [] end).
  destruct (cmdline_options port) as [o|] eqn:Ho.
  - pose proof (split_opts_count_bound ((av2 ++ [bytes "-v" ++ decimal (proto port)]) ++
                                         [bytes "-p"; db]) o) as HC.
    assert (Hb : length ((av2 ++ [bytes "-v" ++ decimal (proto port)]) ++ [bytes "-p"; db])
                 = (length av2 + 3)%nat) by (rewrite !length_app; simpl; lia).
    rewrite Hb in HC.
    pose proof (Z.div_pos (Z.of_nat (cstrlen o) + 1) 2 ltac:(lia) ltac:(lia)).
    lia.
  - simpl split_opts. rewrite !length_app. simpl length.
    lia.
Qed.

(** ** Password salts *)

Lemma CharRemap_code : forall ch,
  let c := Z.rem (if ch <? 0 then - ch else ch) 62 in
  0 <= c < 62
  /\ byteZ (CharRemap ch) = if c <? 26 then 65 + c else if c <? 52 then 71 + c else c - 4.
Proof.
  intros ch c.
  assert (Hc : 0 <= c < 62).
  { unfold c. destruct (ch <? 0) eqn:E;
      [apply Z.ltb_lt in E | apply Z.ltb_ge in E]; apply Z.rem_bound_pos; lia. }
  split; [exact Hc|].
  unfold CharRemap. fold c.
  destruct (c <? 26) eqn:E1; [apply Z.ltb_lt in E1 | apply Z.ltb_ge in E1].
  - apply byteZ_byte_of. lia.
  - destruct (c - 26 <? 26) eqn:E2; [apply Z.ltb_lt in E2 | apply Z.ltb_ge in E2];
      destruct (c <? 52) eqn:E3; [apply Z.ltb_lt in E3 | apply Z.ltb_ge in E3 | apply Z.ltb_lt in E3 | apply Z.ltb_ge in E3];
      try lia.
    + rewrite byteZ_byte_of by lia. lia.
    + rewrite byteZ_byte_of by lia. lia.
Qed.

(** [CharRemap] maps every [long] other than [LONG_MIN] (whose negation
    overflows) to an ASCII letter or digit. *)
Theorem CharRemap_alnum : forall ch, -9223372036854775808 < ch < 9223372036854775808 ->
  let z := byteZ (CharRemap ch) in
  (65 <= z <= 90) \/ (97 <= z <= 122) \/ (48 <= z <= 57).
Proof.
  intros ch _ z. destruct (CharRemap_code ch) as [Hc Hz]. unfold z; rewrite Hz.
  set (c := Z.rem (if ch <? 0 then - ch else ch) 62) in *.
  destruct (c <? 26) eqn:E1; [apply Z.ltb_lt in E1 | apply Z.ltb_ge in E1];
    [|destruct (c <? 52) eqn:E2; [apply Z.ltb_lt in E2 | apply Z.ltb_ge in E2]]; lia.
Qed.

(** On [0..61], the range its comment gives, [CharRemap] is one-to-one:
    distinct values give distinct characters. *)
Theorem CharRemap_injective : forall a b, 0 <= a < 62 -> 0 <= b < 62 ->
  CharRemap a = CharRemap b -> a = b.
Proof.
  intros a b Ha Hb Heq.
  destruct (CharRemap_code a) as [_ Hza]. destruct (CharRemap_code b) as [_ Hzb].
  assert (Ea : (a <? 0) = false) by (apply Z.ltb_ge; lia).
  assert (Eb : (b <? 0) = false) by (apply Z.ltb_ge; lia).
  rewrite Ea in Hza. rewrite Eb in Hzb.
  rewrite (Z.rem_small a 62) in Hza by lia. rewrite (Z.rem_small b 62) in Hzb by lia.
  rewrite Heq in Hza. rewrite Hza in Hzb.
  destruct (a <? 26) eqn:A1; [apply Z.ltb_lt in A1 | apply Z.ltb_ge in A1];
  destruct (a <? 52) eqn:A2; [apply Z.ltb_lt in A2 | apply Z.ltb_ge in A2 | apply Z.ltb_lt in A2 | apply Z.ltb_ge in A2];
  destruct (b <? 26) eqn:B1; [apply Z.ltb_lt in B1 | apply Z.ltb_ge in B1 | apply Z.ltb_lt in B1 | apply Z.ltb_ge in B1 | apply Z.ltb_lt in B1 | apply Z.ltb_ge in B1 | apply Z.ltb_lt in B1 | apply Z.ltb_ge in B1];
  destruct (b <? 52) eqn:B2; try apply Z.ltb_lt in B2; try apply Z.ltb_ge in B2; lia.
Qed.

Lemma char_of_nonzero : forall z, 1 <= z <= 255 -> char_of z <> x00.
Proof.
  intros z Hz Heq. unfold char_of in Heq. rewrite Z.mod_small in Heq by lia.
  assert (H := byteZ_byte_of z ltac:(lia)). rewrite Heq in H. vm_compute in H. lia.
Qed.

(** For the values [random()] returns ([0 .. 2^31-1]), [RandomSalt]
    builds a two-character crypt salt of ASCII letters and digits, and a
    four-byte MD5 salt none of whose bytes is NUL. *)
Theorem RandomSalt_valid : forall r0 r1 r2 r3,
  0 <= r0 < 2147483648 -> 0 <= r1 < 2147483648 ->
  0 <= r2 < 2147483648 -> 0 <= r3 < 2147483648 ->
  let '(cryptSalt, md5Salt) := RandomSalt r0 r1 r2 r3 in
  length cryptSalt = 2%nat /\ length md5Salt = 4%nat
  /\ Forall (fun b => let z := byteZ b in
                      (65 <= z <= 90) \/ (97 <= z <= 122) \/ (48 <= z <= 57)) cryptSalt
  /\ Forall (fun b => b <> x00) md5Salt.
Proof.
  intros r0 r1 r2 r3 H0 H1 H2 H3. unfold RandomSalt.
  assert (Hr : forall r, 0 <= r < 2147483648 -> 1 <= Z.rem r 255 + 1 <= 255).
  { intros r Hr. pose proof (Z.rem_bound_pos r 255 ltac:(lia) ltac:(lia)). lia. }
  repeat split; try reflexivity.
  - constructor; [|constructor; [|constructor]].
    + pose proof (Z.rem_bound_pos r0 62 ltac:(lia) ltac:(lia)) as Hq.
      apply CharRemap_alnum. lia.
    + assert (0 <= Z.quot r0 62 <= r0) by (split; [apply Z.quot_pos | apply Z.quot_le_upper_bound]; lia).
      apply CharRemap_alnum. lia.
  - repeat (constructor; [apply char_of_nonzero, Hr; assumption|]); constructor.
Qed.

(** ** The listen sockets *)

Lemma initMasks_loop_spec : forall socks acc ns,
  (forall fd, In fd acc -> fd <= ns) ->
  let '(m, k) := initMasks_loop socks acc ns in
  exists pre rest, socks = pre ++ rest /\ m = acc ++ pre /\ ~ In (-1) pre
  /\ match rest with [] => True | x :: _ => x = -1 end
  /\ (forall fd, In fd m -> fd <= k) /\ ns <= k /\ (k = ns \/ In k pre).
Proof.
  induction socks as [|fd r IH]; intros acc ns Hacc; simpl.
  - exists [], []. rewrite !app_nil_r.
    repeat split; [intros [] | exact Hacc | lia | left; reflexivity].
  - destruct (fd =? -1) eqn:E.
    + apply Z.eqb_eq in E. exists [], (fd :: r). rewrite !app_nil_r.
      repeat split; [intros [] | exact E | exact Hacc | lia | left; reflexivity].
    + apply Z.eqb_neq in E.
      set (ns' := if fd >? ns then fd else ns).
      assert (Hns' : ns <= ns' /\ fd <= ns').
      { unfold ns'. destruct (fd >? ns) eqn:G; rewrite Z.gtb_ltb in G;
          [apply Z.ltb_lt in G | apply Z.ltb_ge in G]; lia. }
      assert (Hacc' : forall x, In x (acc ++ [fd]) -> x <= ns').
      { intros x Hx. apply in_app_or in Hx. destruct Hx as [Hx|[Hx|[]]].
        - specialize (Hacc x Hx). lia.
        - subst; lia. }
      specialize (IH (acc ++ [fd]) ns' Hacc').
      destruct (initMasks_loop r (acc ++ [fd]) ns') as [m k].
      destruct IH as (pre & rest & H1 & H2 & H3 & H4 & H5 & H6 & H7).
      exists (fd :: pre), rest. repeat split.
      * rewrite H1; reflexivity.
      * rewrite H2, <- app_assoc; reflexivity.
      * intros [Hx|Hx]; [lia | exact (H3 Hx)].
      * exact H4.
      * exact H5.
      * lia.
      * destruct H7 as [H7|H7].
        -- unfold ns' in H7. destruct (fd >? ns); [right; left; lia | left; exact H7].
        -- right; right; exact H7.
Qed.

(** [initMasks] puts in the [select] mask exactly the listen sockets
    before the first unused ([-1]) slot of [ListenSocket] (at most
    [MAXLISTEN]), and returns one more than the largest of them, or 0 when
    there is none or all are negative: [select] watches every one. *)
Theorem initMasks_spec : forall ListenSocket,
  let '(rmask, nfds) := initMasks ListenSocket in
  (exists rest, firstn MAXLISTEN ListenSocket = rmask ++ rest /\ ~ In (-1) rmask
                /\ match rest with [] => True | x :: _ => x = -1 end)
  /\ (forall fd, In fd rmask -> fd < nfds)
  /\ (nfds = 0 \/ In (nfds - 1) rmask).
Proof.
  intros L. unfold initMasks.
  pose proof (initMasks_loop_spec (firstn MAXLISTEN L) [] (-1) ltac:(intros fd [])) as H.
  destruct (initMasks_loop (firstn MAXLISTEN L) [] (-1)) as [m k].
  destruct H as (pre & rest & H1 & H2 & H3 & H4 & H5 & H6 & H7).
  simpl in H2. subst m.
  repeat split.
  - exists rest. repeat split; assumption.
  - intros fd Hfd. specialize (H5 fd Hfd). lia.
  - replace (k + 1 - 1) with k by lia.
    destruct H7 as [H7|H7]; [left; lia | right; exact H7].
Qed.

(** ** The EXEC_BACKEND backend array *)

Lemma htonl_length : forall n, length (htonl n) = 4%nat.
Proof. reflexivity. Qed.

Lemma ntohl_at_app : forall l r off,
  ntohl_at (l ++ r) (length l + off) = ntohl_at r off.
Proof.
  intros l r off. unfold ntohl_at, buf_at.
  rewrite !app_nth2 by lia.
  replace (length l + off - length l)%nat with off by lia.
  replace (length l + off + 1 - length l)%nat with (off + 1)%nat by lia.
  replace (length l + off + 2 - length l)%nat with (off + 2)%nat by lia.
  replace (length l + off + 3 - length l)%nat with (off + 3)%nat by lia.
  reflexivity.
Qed.

(** The cancel request body for a pid and a key, as a client sends it. *)
Lemma processCancelRequest_packet : forall reg p k,
  0 <= p < 2147483648 -> 0 <= k < 4294967296 ->
  processCancelRequest reg (htonl CANCEL_REQUEST_CODE ++ htonl p ++ htonl k)
  = cancel_lookup p k reg.
Proof.
  intros reg p k Hp Hk. unfold processCancelRequest.
  assert (E1 : ntohl_at (htonl CANCEL_REQUEST_CODE ++ htonl p ++ htonl k) 4 = p).
  { change 4%nat with (length (htonl CANCEL_REQUEST_CODE) + 0)%nat.
    rewrite ntohl_at_app. apply ntohl_htonl. lia. }
  assert (E2 : ntohl_at (htonl CANCEL_REQUEST_CODE ++ htonl p ++ htonl k) 8 = k).
  { change 8%nat with (length (htonl CANCEL_REQUEST_CODE) + (length (htonl p) + 0))%nat.
    rewrite !ntohl_at_app. rewrite <- (app_nil_r (htonl k)). apply ntohl_htonl. lia. }
  rewrite E1, E2, to_int32_small by lia. reflexivity.
Qed.

(** [ShmemBackendArrayAdd] fails (FATAL) exactly when every slot is in
    use; otherwise it copies the entry into the first free slot and
    leaves every other slot as it was. *)
Theorem ShmemBackendArrayAdd_first_free : forall bn arr,
  (ShmemBackendArrayAdd bn arr = None <-> Forall (fun b => pid b <> 0) arr)
  /\ forall arr', ShmemBackendArrayAdd bn arr = Some arr' ->
     exists pre b0 post, arr = pre ++ b0 :: post /\ pid b0 = 0
       /\ Forall (fun b => pid b <> 0) pre /\ arr' = pre ++ bn :: post.
Proof.
  intros bn arr. induction arr as [|b r [IH1 IH2]]; simpl.
  - split; [split; intros; [constructor | reflexivity]|]. intros arr' H; discriminate.
  - destruct (Z.eqb_spec (pid b) 0) as [Hb|Hb].
    + split.
      * split; [discriminate|]. intros H. inversion H; contradiction.
      * intros arr' H. injection H as <-. exists [], b, r. repeat split; auto.
    + split.
      * destruct (ShmemBackendArrayAdd bn r) eqn:E; simpl.
        -- split; [discriminate|]. intros H. inversion H as [|? ? _ Hr]; subst.
           apply IH1 in Hr. discriminate.
        -- split; [intros _; constructor; [exact Hb | apply IH1; reflexivity] | reflexivity].
      * intros arr' H. destruct (ShmemBackendArrayAdd bn r) as [r'|] eqn:E; [|discriminate].
        simpl in H. injection H as <-.
        destruct (IH2 r' eq_refl) as (pre & b0 & post & H1 & H2 & H3 & H4).
        exists (b :: pre), b0, post. subst. repeat split; auto.
Qed.

(** In an EXEC_BACKEND build, once [ShmemBackendArrayAdd] has stored a
    backend whose pid no slot held, a cancel request with that pid and
    key makes [processCancelRequest] signal it with SIGINT. *)
Theorem ShmemBackendArrayAdd_cancel : forall bn arr arr',
  0 <= pid bn < 2147483648 -> 0 <= cancel_key bn < 4294967296 ->
  ~ In (pid bn) (map pid arr) ->
  ShmemBackendArrayAdd bn arr = Some arr' ->
  processCancelRequest arr'
    (htonl CANCEL_REQUEST_CODE ++ htonl (pid bn) ++ htonl (cancel_key bn))
  = [(pid bn, SIGINT)].
Proof.
  intros bn arr arr' Hp Hk Hn Hadd.
  rewrite processCancelRequest_packet by assumption.
  destruct (proj2 (ShmemBackendArrayAdd_first_free bn arr) arr' Hadd)
    as (pre & b0 & post & H1 & _ & _ & H4).
  subst arr arr'. clear Hadd.
  induction pre as [|b pre IH]; simpl.
  - rewrite !Z.eqb_refl. reflexivity.
  - simpl in Hn. destruct (Z.eqb_spec (pid b) (pid bn)) as [E|E].
    + exfalso. apply Hn. left. exact E.
    + apply IH. intros H. apply Hn. right. exact H.
Qed.

Lemma ShmemBackendArrayRemove_spec : forall p arr,
  (count_occ Z.eq_dec (map pid arr) p <= 1)%nat ->
  ~ In p (map pid (fst (ShmemBackendArrayRemove p arr))) \/ p = 0.
Proof.
  intros p arr. destruct (Z.eq_dec p 0) as [|Hp]; [right; assumption|]. left.
  revert H. induction arr as [|b r IH]; intros H; simpl; [intros []|].
  destruct (Z.eqb_spec (pid b) p) as [E|E].
  - simpl in H. rewrite E in H. destruct (Z.eq_dec p p) as [_|]; [|contradiction].
    assert (Hc : count_occ Z.eq_dec (map pid r) p = 0%nat) by lia.
    simpl. intros [H0|H0]; [lia|].
    apply (count_occ_not_In Z.eq_dec (map pid r) p) in Hc. contradiction.
  - simpl in H. destruct (Z.eq_dec (pid b) p); [contradiction|].
    specialize (IH H). revert IH.
    case_eq (ShmemBackendArrayRemove p r). intros r' f Er IH. simpl.
    intros [H0|H0]; [contradiction|]. apply IH. exact H0.
Qed.

(** After [ShmemBackendArrayRemove(pid)] of a nonzero pid that at most one
    slot held, the WARNING is given exactly when no slot held it, the array
    keeps its size, and a cancel request for that pid signals nothing,
    whatever the key. *)
Theorem ShmemBackendArrayRemove_cancel : forall p k arr,
  0 < p < 2147483648 -> 0 <= k < 4294967296 ->
  (count_occ Z.eq_dec (map pid arr) p <= 1)%nat ->
  (snd (ShmemBackendArrayRemove p arr) = true <-> In p (map pid arr))
  /\ length (fst (ShmemBackendArrayRemove p arr)) = length arr
  /\ processCancelRequest (fst (ShmemBackendArrayRemove p arr))
       (htonl CANCEL_REQUEST_CODE ++ htonl p ++ htonl k) = [].
Proof.
  intros p k arr Hp Hk Hc. split; [|split].
  - clear Hc. induction arr as [|b r IH]; simpl; [split; [discriminate | intros []]|].
    destruct (Z.eqb_spec (pid b) p) as [E|E]; simpl.
    + split; [intros _; left; exact E | reflexivity].
    + destruct (ShmemBackendArrayRemove p r) as [r' f]. simpl in *.
      rewrite IH. split; [intros H; right; exact H | intros [H|H]; [contradiction | exact H]].
  - clear Hc. induction arr as [|b r IH]; simpl; [reflexivity|].
    destruct (Z.eqb_spec (pid b) p); simpl; [reflexivity|].
    destruct (ShmemBackendArrayRemove p r) as [r' f]. simpl in *. rewrite IH. reflexivity.
  - rewrite processCancelRequest_packet by lia. apply cancel_lookup_absent.
    intros bp Hin E. destruct (ShmemBackendArrayRemove_spec p arr Hc) as [H|H]; [|lia].
    apply H. rewrite <- E at 1. apply in_map. exact Hin.
Qed.

(** The slots of the EXEC_BACKEND array hold pid 0 when free, and a freed
    slot keeps its cancel key: a cancel request for pid 0 carrying the key
    of the first free slot makes [processCancelRequest] call
    [kill(0, SIGINT)], which signals the whole process group.  In the
    freshly allocated array every key is 0. *)
Theorem ShmemBackendArray_free_slot_cancel :
  (forall pre b0 post,
     Forall (fun b => pid b <> 0) pre -> pid b0 = 0 ->
     0 <= cancel_key b0 < 4294967296 ->
     processCancelRequest (pre ++ b0 :: post)
       (htonl CANCEL_REQUEST_CODE ++ htonl 0 ++ htonl (cancel_key b0)) = [(0, SIGINT)])
  /\ (forall cfg, 0 < MaxBackends cfg ->
     processCancelRequest (ShmemBackendArrayAllocation cfg)
       (htonl CANCEL_REQUEST_CODE ++ htonl 0 ++ htonl 0) = [(0, SIGINT)]).
Proof.
  assert (G : forall pre b0 post,
     Forall (fun b => pid b <> 0) pre -> pid b0 = 0 ->
     0 <= cancel_key b0 < 4294967296 ->
     processCancelRequest (pre ++ b0 :: post)
       (htonl CANCEL_REQUEST_CODE ++ htonl 0 ++ htonl (cancel_key b0)) = [(0, SIGINT)]).
  { intros pre b0 post Hpre Hb0 Hk.
    rewrite processCancelRequest_packet by lia.
    induction Hpre as [|b pre Hb _ IH]; simpl.
    - rewrite Hb0, Z.eqb_refl, Z.eqb_refl. reflexivity.
    - destruct (Z.eqb_spec (pid b) 0); [contradiction | exact IH]. }
  split; [exact G|].
  intros cfg Hm. unfold ShmemBackendArrayAllocation, NUM_BACKENDARRAY_ELEMS.
  destruct (Z.to_nat (2 * MaxBackends cfg)) as [|n] eqn:E; [lia|].
  simpl repeat. apply (G [] (mkBackend 0 0)); [constructor | reflexivity | simpl; lia].
Qed.

(** ** The win32 child arrays *)

Lemma set_nth_app : forall A (pre post : list A) a x,
  set_nth (length pre) x (pre ++ a :: post) = pre ++ x :: post.
Proof. intros A pre; induction pre as [|y pre IH]; intros; simpl; [reflexivity | rewrite IH; reflexivity]. Qed.

Lemma find_index_some : forall p l i, find_index p l = Some i ->
  exists pre post, l = pre ++ p :: post /\ length pre = i /\ ~ In p pre.
Proof.
  intros p l; induction l as [|x r IH]; intros i H; simpl in H; [discriminate|].
  destruct (Z.eqb_spec x p) as [E|E].
  - injection H as <-. exists [], r. subst. repeat split; auto.
  - destruct (find_index p r) as [j|] eqn:Ej; [|discriminate]. simpl in H. injection H as <-.
    destruct (IH j eq_refl) as (pre & post & H1 & H2 & H3).
    exists (x :: pre), post. subst. repeat split; auto.
    intros [H|H]; [exact (E H) | exact (H3 H)].
Qed.

Lemma find_index_none : forall p l, find_index p l = None -> ~ In p l.
Proof.
  intros p l; induction l as [|x r IH]; simpl; [intros _ []|].
  destruct (Z.eqb_spec x p); [discriminate|].
  destruct (find_index p r); [discriminate|]. intros _ [H|H]; [contradiction | exact (IH eq_refl H)].
Qed.

Lemma combine_set_nth : forall A B i (x : A) (y : B) l m,
  combine (set_nth i x l) (set_nth i y m) = set_nth i (x, y) (combine l m).
Proof.
  intros A B i x y l; revert i; induction l as [|a l IH]; intros i m;
    destruct m as [|b m]; destruct i; simpl; try reflexivity.
  rewrite IH. reflexivity.
Qed.

Lemma combine_firstn : forall A B n (l : list A) (m : list B),
  combine (firstn n l) (firstn n m) = firstn n (combine l m).
Proof.
  intros A B n; induction n as [|n IH]; intros l m; [reflexivity|].
  destruct l; destruct m; simpl; try reflexivity.
  rewrite IH. reflexivity.
Qed.

(** Swapping the last entry into the removed one loses exactly that entry. *)
Lemma swap_remove_perm : forall A (pre post : list A) a d,
  let l := pre ++ a :: post in
  let n := (length l - 1)%nat in
  Permutation l (a :: firstn n (set_nth (length pre) (nth n l d) l)).
Proof.
  intros A pre post a d. cbv zeta.
  destruct post as [|z post'] using rev_ind.
  - rewrite length_app. simpl. replace (length pre + 1 - 1)%nat with (length pre) by lia.
    rewrite app_nth2, Nat.sub_diag by lia. simpl nth. rewrite set_nth_app.
    rewrite firstn_app, Nat.sub_diag, firstn_all. simpl. rewrite app_nil_r.
    apply Permutation_sym, Permutation_cons_append.
  - assert (L : (length (pre ++ a :: post' ++ [z]) - 1)%nat = length (pre ++ z :: post'))
      by (rewrite !length_app; simpl; rewrite length_app; simpl; lia).
    rewrite L.
    assert (N : nth (length (pre ++ z :: post')) (pre ++ a :: post' ++ [z]) d = z).
    { replace (pre ++ a :: post' ++ [z]) with ((pre ++ a :: post') ++ [z])
        by (rewrite <- app_assoc; reflexivity).
      rewrite app_nth2; rewrite !length_app; simpl; [|lia].
      replace (length pre + S (length post') - (length pre + S (length post')))%nat with 0%nat by lia.
      reflexivity. }
    rewrite N, set_nth_app.
    replace (pre ++ z :: post' ++ [z]) with ((pre ++ z :: post') ++ [z])
      by (rewrite <- app_assoc; reflexivity).
    rewrite firstn_app, firstn_all, Nat.sub_diag. simpl. rewrite app_nil_r.
    eapply Permutation_trans; [apply Permutation_sym, Permutation_middle|].
    apply perm_skip, Permutation_app_head, Permutation_sym, Permutation_cons_append.
Qed.

Lemma swap_remove_perm_at : forall A (l : list A) i d, (i < length l)%nat ->
  Permutation l (nth i l d :: firstn (length l - 1) (set_nth i (nth (length l - 1) l d) l)).
Proof.
  intros A l i d Hi. destruct (nth_split l d Hi) as (pre & post & E & Hl).
  remember (nth i l d) as a eqn:Ea. clear Ea. subst i. rewrite E.
  exact (swap_remove_perm A pre post a d).
Qed.

Lemma length_set_nth : forall A i (x : A) l, length (set_nth i x l) = length l.
Proof. intros A i x l; revert i; induction l as [|y l IH]; intros [|i]; simpl; auto. Qed.

Lemma find_index_app_absent : forall p l, ~ In p l -> find_index p (l ++ [p]) = Some (length l).
Proof.
  intros p l; induction l as [|x r IH]; intros Hn; simpl.
  - rewrite Z.eqb_refl. reflexivity.
  - destruct (Z.eqb_spec x p) as [E|E]; [exfalso; apply Hn; left; exact E|].
    rewrite IH; [reflexivity|]. intros H; apply Hn; right; exact H.
Qed.

(** [win32_RemoveChild(pid)] with the two arrays of equal length: when
    no entry holds [pid] nothing changes (the WARNING); otherwise it
    closes the handle paired with the first entry holding [pid], both
    arrays lose one element, and the (pid, handle) pairs that remain are
    the former ones minus that pair: the swap with the last entry keeps
    every pid with its own handle. *)
Theorem win32_RemoveChild_spec : forall p w,
  length (childPIDs w) = length (childHNDs w) ->
  (~ In p (childPIDs w) -> win32_RemoveChild p w = (w, None))
  /\ (In p (childPIDs w) -> exists w' h, win32_RemoveChild p w = (w', Some h)
        /\ length (childPIDs w') = (length (childPIDs w) - 1)%nat
        /\ length (childHNDs w') = length (childPIDs w')
        /\ Permutation (combine (childPIDs w) (childHNDs w))
                       ((p, h) :: combine (childPIDs w') (childHNDs w'))).
Proof.
  intros p [pids hnds] Hlen; simpl in *. unfold win32_RemoveChild; simpl.
  split.
  - intros Hn. destruct (find_index p pids) as [i|] eqn:E; [|reflexivity].
    exfalso. destruct (find_index_some p pids i E) as (pre & post & H1 & _ & _).
    apply Hn. rewrite H1. apply in_or_app. right; left; reflexivity.
  - intros Hin. destruct (find_index p pids) as [i|] eqn:E;
      [|exfalso; exact (find_index_none p pids E Hin)].
    destruct (find_index_some p pids i E) as (pre & post & H1 & H2 & _).
    assert (Hi : (i < length pids)%nat) by (subst; rewrite length_app; simpl; lia).
    assert (Hp : nth i pids 0 = p) by (subst; rewrite app_nth2, Nat.sub_diag by lia; reflexivity).
    set (n := (length pids - 1)%nat).
    eexists; eexists. split; [reflexivity|]. simpl.
    rewrite !length_firstn, !length_set_nth. split; [lia|]. split; [lia|].
    rewrite combine_firstn, combine_set_nth.
    set (C := combine pids hnds).
    assert (HC : length C = length pids) by (unfold C; rewrite length_combine; lia).
    assert (Hn : nth n C (0, 0) = (nth n pids 0, nth n hnds 0))
      by (unfold C; apply combine_nth; exact Hlen).
    assert (Hc : nth i C (0, 0) = (p, nth i hnds 0))
      by (unfold C; rewrite combine_nth by exact Hlen; rewrite Hp; reflexivity).
    rewrite <- Hn, <- Hc. unfold n. rewrite <- HC.
    apply swap_remove_perm_at. lia.
Qed.

(** [win32_RemoveChild] undoes [win32_AddChild]: adding a pid no entry
    holds, with its handle, then removing it gives back the arrays as they
    were and closes that handle. *)
Theorem win32_AddChild_RemoveChild : forall cfg p h w w',
  length (childHNDs w) = length (childPIDs w) -> ~ In p (childPIDs w) ->
  win32_AddChild cfg p h w = Some w' -> win32_RemoveChild p w' = (w, Some h).
Proof.
  intros cfg p h [pids hnds] w' Hlen Hn Hadd; simpl in *.
  unfold win32_AddChild in Hadd; simpl in Hadd.
  destruct (Nat.ltb (length pids) (NUM_BACKENDARRAY_ELEMS cfg)); [|discriminate].
  injection Hadd as <-. unfold win32_RemoveChild; simpl.
  rewrite find_index_app_absent by exact Hn.
  rewrite length_app. simpl. rewrite Nat.add_sub.
  assert (N1 : nth (length pids) (pids ++ [p]) 0 = p)
    by (rewrite app_nth2, Nat.sub_diag by lia; reflexivity).
  assert (N2 : nth (length pids) (hnds ++ [h]) 0 = h)
    by (rewrite <- Hlen, app_nth2, Nat.sub_diag by lia; reflexivity).
  assert (S1 : set_nth (length pids) p (pids ++ [p]) = pids ++ [p])
    by exact (set_nth_app _ pids [] p p).
  assert (S2 : set_nth (length pids) h (hnds ++ [h]) = hnds ++ [h])
    by (rewrite <- Hlen; exact (set_nth_app _ hnds [] h h)).
  assert (F1 : firstn (length pids) (pids ++ [p]) = pids)
    by (rewrite firstn_app, Nat.sub_diag, firstn_all; simpl; apply app_nil_r).
  assert (F2 : firstn (length pids) (hnds ++ [h]) = hnds)
    by (rewrite <- Hlen, firstn_app, Nat.sub_diag, firstn_all; simpl; apply app_nil_r).
  rewrite N1, N2, S1, S2, F1, F2. reflexivity.
Qed.

(** ** Child crashes *)

Lemma add_kills_add_kills : forall ks ks' s, add_kills ks (add_kills ks' s) = add_kills (ks' ++ ks) s.
Proof. intros ks ks' [? ? ? ? ? ? ? ? ? ? ?]; unfold add_kills; simpl; rewrite app_assoc; reflexivity. Qed.

Lemma add_kill_kills : forall k s, add_kill k s = add_kills [k] s.
Proof. reflexivity. Qed.

Lemma add_kills_nil : forall s, add_kills [] s = s.
Proof. intros [? ? ? ? ? ? ? ? ? ? ?]; unfold add_kills; simpl; rewrite app_nil_r; reflexivity. Qed.

Lemma iter_kill_others : forall p c sg bl s,
  iter_list (fun bp => if pid bp =? p then ret tt else when c (kill (pid bp) sg)) bl s
  = Ok tt (add_kills (if c then map (fun b => (pid b, sg))
                                  (filter (fun bp => negb (pid bp =? p)) bl) else []) s).
Proof.
  intros p c sg bl; induction bl as [|b r IH]; intros s.
  - cbn. destruct c; rewrite add_kills_nil; reflexivity.
  - cbn [iter_list filter]. unfold bind.
    destruct (pid b =? p); cbn [negb].
    + unfold ret at 1. rewrite IH. reflexivity.
    + destruct c; cbn [when].
      * unfold kill, modify. rewrite IH, add_kill_kills, add_kills_add_kills. reflexivity.
      * unfold ret at 1. rewrite IH. reflexivity.
Qed.

Lemma iter_kill_all : forall sg bl s,
  iter_list (fun bp => kill (pid bp) sg) bl s
  = Ok tt (add_kills (map (fun b => (pid b, sg)) bl) s).
Proof.
  intros sg bl; induction bl as [|b r IH]; intros s.
  - cbn. rewrite add_kills_nil; reflexivity.
  - cbn [iter_list map]. unfold bind, kill, modify.
    rewrite IH, add_kill_kills, add_kills_add_kills. reflexivity.
Qed.

Lemma HandleChildCrash_effect : forall cfg p x st,
  let fe := FatalError st in
  let bw := BgWriterPID st in
  let qsig := if SendStop cfg then SIGSTOP else SIGQUIT in
  let survivors := filter (fun bp => negb (pid bp =? p)) (BackendList st) in
  exists st', HandleChildCrash cfg p x st = Ok tt st'
  /\ Shutdown st' = Shutdown st /\ StartupPID st' = StartupPID st
  /\ PgArchPID st' = PgArchPID st /\ PgStatPID st' = PgStatPID st
  /\ SysLoggerPID st' = SysLoggerPID st
  /\ next_pid st' = next_pid st /\ forks st' = forks st
  /\ FatalError st' = true /\ BackendList st' = survivors
  /\ BgWriterPID st' = (if p =? bw then 0 else bw)
  /\ kills st' = kills st ++
       (if fe then [] else
        map (fun b => (pid b, qsig)) survivors
        ++ (if negb (p =? bw) && negb (bw =? 0) then [(bw, qsig)] else [])
        ++ (if negb (PgArchPID st =? 0) then [(PgArchPID st, SIGQUIT)] else [])
        ++ (if negb (PgStatPID st =? 0) then [(PgStatPID st, SIGQUIT)] else [])).
Proof.
  intros cfg p x st fe bw qsig survivors.
  unfold HandleChildCrash. cbv [bind gets modify].
  rewrite iter_kill_others.
  cbv [when kill modify ret]. subst fe bw qsig survivors.
  destruct st as [sd sp bw pa ps sl fe bl np fs ks]; cbn.
  destruct fe; cbn;
  destruct (p =? bw); cbn;
  destruct (bw =? 0); cbn;
  destruct (pa =? 0); cbn;
  destruct (ps =? 0); cbn;
  (eexists; split; [reflexivity|]); cbn;
  repeat split; rewrite ?app_nil_r, <- ?app_assoc; reflexivity.
Qed.

Lemma not_this_child : forall c p, (c = 0 \/ p <> c) -> negb (c =? 0) && (p =? c) = false.
Proof.
  intros c p [H|H]; [subst; reflexivity|].
  destruct (Z.eqb_spec p c); [contradiction | apply andb_false_r].
Qed.


(** [HandleChildCrash] never makes the postmaster exit; afterwards
    [FatalError] is set, no [BackendList] entry carries the dead pid while
    every other entry stays in place, and the shutdown level and the
    startup pid are untouched. *)
Theorem HandleChildCrash_state : forall cfg p x st,
  exists st', HandleChildCrash cfg p x st = Ok tt st'
  /\ FatalError st' = true
  /\ BackendList st' = filter (fun bp => negb (pid bp =? p)) (BackendList st)
  /\ ~ In p (map pid (BackendList st'))
  /\ Shutdown st' = Shutdown st /\ StartupPID st' = StartupPID st.
Proof.
  intros cfg p x st.
  destruct (HandleChildCrash_effect cfg p x st)
    as (st' & E & Hsd & Hsp & _ & _ & _ & _ & _ & Hfe & Hbl & _ & _).
  exists st'. repeat split; try assumption.
  rewrite Hbl. intros Hin. apply in_map_iff in Hin. destruct Hin as (b & Hb & Hin).
  apply filter_In in Hin. destruct Hin as [_ Hn]. rewrite Hb, Z.eqb_refl in Hn. discriminate.
Qed.

(** The signals of [HandleChildCrash]: when [FatalError] was already set
    it sends none; otherwise every other backend gets SIGQUIT (SIGSTOP
    when [SendStop] is set). *)
Theorem HandleChildCrash_signals : forall cfg p x st,
  let qsig := if SendStop cfg then SIGSTOP else SIGQUIT in
  exists st', HandleChildCrash cfg p x st = Ok tt st'
  /\ (FatalError st = true -> kills st' = kills st)
  /\ (FatalError st = false -> forall b, In b (BackendList st) -> pid b <> p ->
        In (pid b, qsig) (kills st')).
Proof.
  intros cfg p x st qsig.
  destruct (HandleChildCrash_effect cfg p x st)
    as (st' & E & _ & _ & _ & _ & _ & _ & _ & _ & _ & _ & Hk).
  exists st'. split; [exact E|]. split.
  - intros Hfe. rewrite Hk, Hfe, app_nil_r. reflexivity.
  - intros Hfe b Hin Hp. rewrite Hk, Hfe. apply in_or_app. right.
    apply in_or_app. left. apply in_map_iff. exists b. split; [reflexivity|].
    apply filter_In. split; [exact Hin|]. destruct (Z.eqb_spec (pid b) p); [contradiction | reflexivity].
Qed.


(** [pmdie(SIGQUIT)] makes the postmaster exit with code 0 right after
    sending SIGQUIT to the startup process, the bgwriter, the archiver
    and the stats collector (each one running) and to every backend; it
    changes nothing else. *)
Theorem pmdie_SIGQUIT_exits : forall st,
  pmdie SIGQUIT st = Exited 0 (add_kills (
      (if negb (StartupPID st =? 0) then [(StartupPID st, SIGQUIT)] else [])
      ++ (if negb (BgWriterPID st =? 0) then [(BgWriterPID st, SIGQUIT)] else [])
      ++ (if negb (PgArchPID st =? 0) then [(PgArchPID st, SIGQUIT)] else [])
      ++ (if negb (PgStatPID st =? 0) then [(PgStatPID st, SIGQUIT)] else [])
      ++ map (fun b => (pid b, SIGQUIT)) (BackendList st)) st).
Proof.
  intros st.
  assert (I : forall sg bl s, iter_list (fun bp s => Ok tt (add_kill (pid bp, sg) s)) bl s
                          = Ok tt (add_kills (map (fun b => (pid b, sg)) bl) s))
    by exact iter_kill_all.
  unfold pmdie, SignalChildren.
  cbv [bind gets when kill modify ret ExitPostmaster].
  destruct st as [sd sp bw pa ps sl fe bl np fs ks]; cbn.
  destruct bl as [|b bl];
  repeat (cbn -[iter_list add_kills];
          match goal with |- context [negb (?a =? 0)] => destruct (a =? 0) end);
  cbn -[iter_list add_kills]; rewrite ?I;
  cbn -[add_kills]; rewrite ?add_kill_kills, ?add_kills_add_kills;
  unfold add_kills; cbn; rewrite ?app_nil_r, <- ?app_assoc; reflexivity.
Qed.



(** The bgwriter's exit: a clean exit during a shutdown, with no backend
    left and no crash being handled, makes the postmaster exit with code
    0; every other exit of the bgwriter is handled as a crash: the
    postmaster goes on with [FatalError] set and no bgwriter. *)
Theorem reap_child_bgwriter_exit : forall cfg x st,
  BgWriterPID st <> 0 -> BgWriterPID st <> StartupPID st ->
  ((x = 0 /\ Shutdown st > NoShutdown /\ FatalError st = false /\ BackendList st = []) ->
     reap_child cfg (BgWriterPID st) x st = Exited 0 (set_BgWriterPID 0 st))
  /\ (~ (x = 0 /\ Shutdown st > NoShutdown /\ FatalError st = false /\ BackendList st = []) ->
     exists st', reap_child cfg (BgWriterPID st) x st = Ok tt st'
       /\ FatalError st' = true /\ BgWriterPID st' = 0).
Proof.
  intros cfg x st Hbw Hne.
  assert (R : reap_child cfg (BgWriterPID st) x st =
    (if (x =? 0) && (Shutdown st >? NoShutdown) && negb (FatalError st)
        && match BackendList st with [] => true | _ => false end
     then ExitPostmaster 0 else HandleChildCrash cfg (BgWriterPID st) x)
      (set_BgWriterPID 0 st)).
  { unfold reap_child. cbv [bind gets].
    rewrite (not_this_child _ _ (or_intror Hne)).
    replace (negb (BgWriterPID st =? 0) && (BgWriterPID st =? BgWriterPID st)) with true
      by (rewrite Z.eqb_refl; destruct (Z.eqb_spec (BgWriterPID st) 0);
          [contradiction | reflexivity]).
    reflexivity. }
  rewrite R. split.
  - intros (H1 & H2 & H3 & H4). subst x. rewrite H3, H4, Z.eqb_refl.
    replace (Shutdown st >? NoShutdown) with true
      by (symmetry; rewrite Z.gtb_ltb; apply Z.ltb_lt; lia).
    reflexivity.
  - intros Hn.
    replace ((x =? 0) && (Shutdown st >? NoShutdown) && negb (FatalError st)
             && match BackendList st with [] => true | _ => false end) with false.
    + destruct (HandleChildCrash_effect cfg (BgWriterPID st) x (set_BgWriterPID 0 st))
        as (st' & E & _ & _ & _ & _ & _ & _ & _ & Hfe & _ & Hbw' & _).
      exists st'. split; [exact E|]. split; [exact Hfe|].
      rewrite Hbw'. cbn. destruct (BgWriterPID st =? 0); reflexivity.
    + symmetry. destruct (Z.eqb_spec x 0); [|reflexivity].
      destruct (Shutdown st >? NoShutdown) eqn:G; [|reflexivity].
      rewrite Z.gtb_ltb, Z.ltb_lt in G.
      destruct (FatalError st) eqn:F; [reflexivity|].
      destruct (BackendList st) eqn:B; [|reflexivity].
      exfalso. apply Hn. repeat split; auto. lia.
Qed.

(** ** Framing of the startup packet *)

Lemma to_int32_spec : forall z,
  -2147483648 <= to_int32 z < 2147483648 /\ exists k, to_int32 z = z + 4294967296 * k.
Proof.
  intros z. unfold to_int32.
  pose proof (Z.mod_pos_bound z 4294967296 ltac:(lia)) as Hm.
  pose proof (Z.div_mod z 4294967296 ltac:(lia)) as Hd.
  destruct (z mod 4294967296 >=? 2147483648) eqn:G.
  - apply Z.geb_le in G. split; [lia|]. exists (- (z / 4294967296) - 1). lia.
  - rewrite Z.geb_leb, Z.leb_gt in G. split; [lia|]. exists (- (z / 4294967296)). lia.
Qed.

Lemma body_framing_error : forall cfg registry env recur port SSLdone stream,
  MAX_STARTUP_PACKET_LENGTH cfg < 2147483644 ->
  ((length stream < 4)%nat
   \/ to_int32 (ntohl_at stream 0) < 8
   \/ to_int32 (ntohl_at stream 0) > MAX_STARTUP_PACKET_LENGTH cfg + 4
   \/ Z.of_nat (length stream) < to_int32 (ntohl_at stream 0)) ->
  ProcessStartupPacket_body cfg registry env recur port SSLdone stream = mkOut PSP_ERROR [] [].
Proof.
  intros cfg registry env recur port SSLdone stream Hmax Hc.
  destruct stream as [|a [|b [|c [|d r]]]]; try reflexivity.
  unfold ProcessStartupPacket_body, pq_getbytes at 1. cbn [length Nat.leb firstn skipn].
  assert (W : ntohl_at [a; b; c; d] 0 = ntohl_at (a :: b :: c :: d :: r) 0) by reflexivity.
  rewrite W. set (v := to_int32 (ntohl_at (a :: b :: c :: d :: r) 0)).
  destruct (to_int32_spec (ntohl_at (a :: b :: c :: d :: r) 0)) as [Hv _].
  fold v in Hv.
  destruct (to_int32_spec (v - 4)) as [Hl [k Hk]].
  set (len := to_int32 (v - 4)) in *.
  destruct ((len <? 4) || (len >? MAX_STARTUP_PACKET_LENGTH cfg)) eqn:G; [reflexivity|].
  apply orb_false_iff in G. destruct G as [G1 G2].
  apply Z.ltb_ge in G1. rewrite Z.gtb_ltb in G2. apply Z.ltb_ge in G2.
  assert (Hk0 : k = 0) by lia. subst k.
  cbn [length] in Hc.
  destruct Hc as [Hc|[Hc|[Hc|Hc]]]; [lia | lia | lia |].
  unfold pq_getbytes. replace (Nat.leb (Z.to_nat len) (length r)) with false; [reflexivity|].
  symmetry. apply Nat.leb_gt. lia.
Qed.

(** [ProcessStartupPacket] gives up with [STATUS_ERROR], sending nothing
    and signalling no one, when the stream ends before the 4-byte length
    word, when that word (a signed 32-bit count that includes itself) is
    below 8 or above [MAX_STARTUP_PACKET_LENGTH] + 4, or when fewer bytes
    than it announces follow. *)
Theorem ProcessStartupPacket_framing_errors : forall cfg registry env port SSLdone stream,
  MAX_STARTUP_PACKET_LENGTH cfg < 2147483644 ->
  ((length stream < 4)%nat
   \/ to_int32 (ntohl_at stream 0) < 8
   \/ to_int32 (ntohl_at stream 0) > MAX_STARTUP_PACKET_LENGTH cfg + 4
   \/ Z.of_nat (length stream) < to_int32 (ntohl_at stream 0)) ->
  ProcessStartupPacket cfg registry env port SSLdone stream = mkOut PSP_ERROR [] [].
Proof.
  intros cfg registry env port SSLdone stream Hmax Hc.
  unfold ProcessStartupPacket. destruct SSLdone; apply body_framing_error; assumption.
Qed.

(** ** Protocol 3 startup packets *)

Lemma cstrlen_app_nul : forall l r, ~ In x00 l -> cstrlen (l ++ x00 :: r) = length l.
Proof.
  intros l r; induction l as [|b l IH]; intros Hn; simpl; [reflexivity|].
  destruct (Byte.eqb b x00) eqn:E.
  - apply Byte.byte_dec_bl in E. exfalso. apply Hn. left. exact E.
  - rewrite IH; [reflexivity|]. intros H. apply Hn. right. exact H.
Qed.

Lemma cstr_at_app : forall pre l r, ~ In x00 l ->
  strlen_at (pre ++ l ++ x00 :: r) (length pre) = length l
  /\ cstr_at (pre ++ l ++ x00 :: r) (length pre) = l.
Proof.
  intros pre l r Hn. unfold cstr_at, strlen_at.
  rewrite skipn_app, Nat.sub_diag, skipn_all. simpl.
  rewrite cstrlen_app_nul by exact Hn.
  split; [reflexivity|]. rewrite firstn_app, Nat.sub_diag, firstn_all. simpl. apply app_nil_r.
Qed.

Lemma scan_options_step : forall f buf len off acc,
  (off <? len) = true -> Byte.eqb (buf_at buf (Z.to_nat off)) x00 = false ->
  (off + Z.of_nat (strlen_at buf (Z.to_nat off)) + 1 >=? len) = false ->
  scan_options (S f) buf len off acc
  = (let valoffset := off + Z.of_nat (strlen_at buf (Z.to_nat off)) + 1 in
     scan_options f buf len
       (valoffset + Z.of_nat (strlen_at buf (Z.to_nat valoffset)) + 1)
       (add_option acc (cstr_at buf (Z.to_nat off), cstr_at buf (Z.to_nat valoffset)))).
Proof. intros f buf len off acc H1 H2 H3. simpl. rewrite H1, H2, H3. reflexivity. Qed.

Lemma scan_options_end : forall f buf len off acc,
  (off <? len) = true -> Byte.eqb (buf_at buf (Z.to_nat off)) x00 = true ->
  scan_options (S f) buf len off acc = (off, acc).
Proof. intros f buf len off acc H1 H2. simpl. rewrite H1, H2. reflexivity. Qed.

Lemma encode_options_length : forall ps, (length ps < length (encode_options ps))%nat.
Proof.
  intros ps; induction ps as [|[n v] r IH]; simpl; [lia|].
  rewrite length_app. simpl. rewrite length_app. simpl. lia.
Qed.

Lemma scan_encode_options : forall ps pre acc fuel,
  Forall option_pair_ok ps -> (length ps < fuel)%nat ->
  (let buf := pre ++ encode_options ps in
   scan_options fuel buf (Z.of_nat (length buf)) (Z.of_nat (length pre)) acc
   = (Z.of_nat (length buf) - 1, fold_left add_option ps acc)).
Proof.
  intros ps; induction ps as [|[n v] r IH]; intros pre acc fuel Hok Hf buf; subst buf.
  - destruct fuel as [|f]; [simpl in Hf; lia|].
    rewrite scan_options_end.
    + f_equal. cbn [encode_options]. rewrite length_app. simpl. lia.
    + apply Z.ltb_lt. cbn [encode_options]. rewrite length_app. simpl. lia.
    + rewrite Nat2Z.id. unfold buf_at. cbn [encode_options].
      rewrite app_nth2, Nat.sub_diag by lia. reflexivity.
  - inversion Hok as [|? ? [Hn1 [Hn2 Hn3]] Hr]; subst. simpl in Hn1, Hn2, Hn3.
    destruct fuel as [|f]; [simpl in Hf; lia|]. simpl in Hf.
    cbn [encode_options].
    pose proof (encode_options_length r) as Hel.
    destruct (cstr_at_app pre n (v ++ x00 :: encode_options r) Hn2) as [S1 C1].
    destruct (cstr_at_app (pre ++ n ++ [x00]) v (encode_options r) Hn3) as [S2 C2].
    assert (B : pre ++ n ++ x00 :: v ++ x00 :: encode_options r
                = (pre ++ n ++ [x00]) ++ v ++ x00 :: encode_options r)
      by (rewrite <- !app_assoc; reflexivity).
    assert (L : length (pre ++ n ++ x00 :: v ++ x00 :: encode_options r)
                = (length pre + length n + 1 + length v + 1 + length (encode_options r))%nat)
      by (rewrite !length_app; simpl; rewrite length_app; simpl; lia).
    assert (L2 : length (pre ++ n ++ [x00]) = (length pre + length n + 1)%nat)
      by (rewrite !length_app; simpl; lia).
    rewrite scan_options_step.
    + cbv zeta. rewrite Nat2Z.id, S1, C1.
      replace (Z.to_nat (Z.of_nat (length pre) + Z.of_nat (length n) + 1))
        with (length (pre ++ n ++ [x00])) by lia.
      rewrite B, S2, C2. rewrite <- B.
      replace (Z.of_nat (length pre) + Z.of_nat (length n) + 1 + Z.of_nat (length v) + 1)
        with (Z.of_nat (length ((pre ++ n ++ x00 :: v ++ [x00]))))
        by (rewrite !length_app; simpl; rewrite length_app; simpl; lia).
      replace (pre ++ n ++ x00 :: v ++ x00 :: encode_options r)
        with ((pre ++ n ++ x00 :: v ++ [x00]) ++ encode_options r)
        by (rewrite <- !app_assoc; simpl; rewrite <- !app_assoc; reflexivity).
      apply IH; [exact Hr | lia].
    + apply Z.ltb_lt. rewrite L. lia.
    + rewrite Nat2Z.id. unfold buf_at. rewrite app_nth2, Nat.sub_diag by lia.
      destruct n as [|c n']; [contradiction|]. simpl.
      destruct (Byte.eqb c x00) eqn:E; [|reflexivity].
      apply Byte.byte_dec_bl in E. exfalso. apply Hn2. left. exact E.
    + rewrite Nat2Z.id, S1, L. rewrite Z.geb_leb. apply Z.leb_gt. lia.
Qed.

(** A protocol 3 startup packet as a client builds it (the version, then
    name/value pairs each ended by a NUL, then the empty name) is decoded
    into exactly the pairs sent: [ProcessStartupPacket] hands the port's
    fields, filled pair by pair in order, to the final checks, with
    nothing sent and no signal. *)
Theorem protocol3_startup_roundtrip : forall cfg registry env port SSLdone proto ps rest,
  0 <= proto < 4294967296 ->
  proto <> CANCEL_REQUEST_CODE -> proto <> NEGOTIATE_SSL_CODE ->
  unsupported_protocol cfg proto = false -> PG_PROTOCOL_MAJOR proto >= 3 ->
  Forall option_pair_ok ps ->
  Z.of_nat (length (htonl proto ++ encode_options ps)) + 8 < 2147483648 ->
  Z.of_nat (length (htonl proto ++ encode_options ps)) <= MAX_STARTUP_PACKET_LENGTH cfg ->
  ProcessStartupPacket cfg registry env port SSLdone
    (startup_packet (htonl proto ++ encode_options ps) ++ rest)
  = mkOut (finish_startup cfg (set_proto proto port) (fold_left add_option ps no_fields)) [] [].
Proof.
  intros cfg registry env port SSLdone proto ps rest Hp Hc Hs Hu Hm Hok H1 H2.
  set (body := htonl proto ++ encode_options ps) in *.
  assert (Hb4 : (4 <= length body)%nat) by (unfold body; rewrite length_app, htonl_length; lia).
  assert (P : forall recur SSLd,
    ProcessStartupPacket_body cfg registry env recur port SSLd (startup_packet body ++ rest)
    = mkOut (finish_startup cfg (set_proto proto port) (fold_left add_option ps no_fields)) [] []).
  { intros recur SSLd.
    rewrite ProcessStartupPacket_body_read by assumption.
    unfold process_packet.
    assert (V : ntohl_at body 0 = proto) by (unfold body; apply ntohl_htonl; exact Hp).
    rewrite V.
    replace (proto =? CANCEL_REQUEST_CODE) with false by (symmetry; apply Z.eqb_neq; exact Hc).
    replace (proto =? NEGOTIATE_SSL_CODE) with false by (symmetry; apply Z.eqb_neq; exact Hs).
    rewrite Hu. cbn [andb].
    replace (PG_PROTOCOL_MAJOR proto >=? 3) with true
      by (symmetry; rewrite Z.geb_leb; apply Z.leb_le; lia).
    pose proof (scan_encode_options ps (htonl proto) no_fields (Z.to_nat (Z.of_nat (length body))) Hok)
      as S.
    cbv zeta in S. rewrite htonl_length in S. fold body in S. change (Z.of_nat 4) with 4 in S.
    rewrite S.
    - rewrite Z.eqb_refl. reflexivity.
    - rewrite Nat2Z.id. unfold body. rewrite length_app, htonl_length.
      pose proof (encode_options_length ps). lia. }
  unfold ProcessStartupPacket. destruct SSLdone; apply P.
Qed.

(** ** Database and user names *)

Lemma truncate_name_bound : forall s, (length (truncate_name s) <= 63)%nat.
Proof.
  intros s. unfold truncate_name. destruct (Nat.leb NAMEDATALEN (length s)) eqn:E.
  - rewrite length_firstn. unfold NAMEDATALEN. lia.
  - apply Nat.leb_gt in E. unfold NAMEDATALEN in E. lia.
Qed.

Lemma truncate_name_nil : forall s, truncate_name s = [] <-> s = [].
Proof.
  intros s. unfold truncate_name. destruct (Nat.leb NAMEDATALEN (length s)) eqn:E.
  - apply Nat.leb_le in E. split; intros H.
    + exfalso. apply (f_equal (@length byte)) in H. rewrite length_firstn in H.
      cbn [length] in H. unfold NAMEDATALEN in *. lia.
    + subst. simpl in E. unfold NAMEDATALEN in E. lia.
  - tauto.
Qed.

(** When [ProcessStartupPacket]'s final checks accept a connection, the
    port carries a nonempty database name and a user name, both at most
    [NAMEDATALEN - 1] = 63 bytes long; the user name is empty in exactly
    one case: with [Db_user_namespace] on, a user name of "@" alone (the
    "global user" suffix is stripped, leaving nothing). *)
Theorem finish_startup_names : forall cfg port f port',
  finish_startup cfg port f = PSP_OK port' ->
  exists db user, database_name port' = Some db /\ user_name port' = Some user
    /\ db <> [] /\ (length db <= 63)%nat /\ (length user <= 63)%nat
    /\ (user = [] <-> Db_user_namespace cfg = true /\ f_user f = Some [x40]).
Proof.
  intros cfg port f port' H. unfold finish_startup in H.
  destruct (f_user f) as [[|u us]|] eqn:Fu; try discriminate.
  destruct (port_canAcceptConnections port); try discriminate.
  injection H as <-. cbn [database_name user_name].
  eexists; eexists. split; [reflexivity|]. split; [reflexivity|].
  split; [|split; [apply truncate_name_bound | split; [apply truncate_name_bound|]]].
  - rewrite truncate_name_nil. destruct (f_database f) as [[|d ds]|]; discriminate.
  - rewrite truncate_name_nil. split.
    + destruct (Db_user_namespace cfg); [|discriminate].
      cbn [index_of].
      destruct (Byte.eqb u x40) eqn:Eu.
      * destruct us as [|u' us]; cbn.
        -- intros _. apply Byte.byte_dec_bl in Eu. subst. split; reflexivity.
        -- intros Hf. discriminate.
      * destruct (index_of x40 us); cbn;
          [match goal with |- (if ?c then _ else _) = [] -> _ => destruct c end;
           intros Hf; discriminate | intros Hf; discriminate].
    + intros [Hn Hu]. injection Hu as -> ->. rewrite Hn. reflexivity.
Qed.

(** ** Exits of the archiver and the stats collector *)

(** The archiver's exit is never handled as a crash: whatever its exit
    status, the postmaster goes on with [FatalError], [BackendList], the
    shutdown level and the startup pid unchanged and no signal sent; a new
    archiver is started only when archiving is on and the system runs
    normally (no startup process, no crash, no shutdown). *)
Theorem reap_child_archiver_exit : forall cfg x st,
  PgArchPID st <> 0 -> PgArchPID st <> StartupPID st -> PgArchPID st <> BgWriterPID st ->
  exists st', reap_child cfg (PgArchPID st) x st = Ok tt st'
    /\ FatalError st' = FatalError st /\ BackendList st' = BackendList st
    /\ Shutdown st' = Shutdown st /\ StartupPID st' = StartupPID st /\ kills st' = kills st
    /\ (PgArchPID st' <> 0 -> XLogArchivingActive cfg = true /\ StartupPID st = 0
                              /\ FatalError st = false /\ Shutdown st = NoShutdown).
Proof.
  intros cfg x st Hpa Hsp Hbw. unfold reap_child. cbv [bind gets].
  rewrite (not_this_child _ _ (or_intror Hsp)), (not_this_child _ _ (or_intror Hbw)).
  replace (negb (PgArchPID st =? 0) && (PgArchPID st =? PgArchPID st)) with true
    by (rewrite Z.eqb_refl; destruct (Z.eqb_spec (PgArchPID st) 0); [contradiction | reflexivity]).
  cbv [modify when ret]. cbn [StartupPID FatalError Shutdown set_PgArchPID].
  destruct (XLogArchivingActive cfg && (StartupPID st =? 0) && negb (FatalError st)
            && (Shutdown st =? NoShutdown)) eqn:C.
  - rewrite !andb_true_iff, negb_true_iff, !Z.eqb_eq in C.
    unfold pgarch_start, start_aux, bind, fork. cbn [forks set_PgArchPID].
    destruct (forks st) as [|[|] r]; cbn;
      (eexists; split; [reflexivity|]); cbn; repeat split; tauto.
  - eexists; split; [reflexivity|]. cbn. repeat split;
      exfalso; match goal with H : ?a <> ?a |- _ => apply H; reflexivity end.
Qed.

(** The same for the stats collector, restarted only when the system
    runs normally. *)
Theorem reap_child_stats_exit : forall cfg x st,
  PgStatPID st <> 0 -> PgStatPID st <> StartupPID st -> PgStatPID st <> BgWriterPID st ->
  PgStatPID st <> PgArchPID st ->
  exists st', reap_child cfg (PgStatPID st) x st = Ok tt st'
    /\ FatalError st' = FatalError st /\ BackendList st' = BackendList st
    /\ Shutdown st' = Shutdown st /\ StartupPID st' = StartupPID st /\ kills st' = kills st
    /\ (PgStatPID st' <> 0 -> StartupPID st = 0 /\ FatalError st = false
                              /\ Shutdown st = NoShutdown).
Proof.
  intros cfg x st Hps Hsp Hbw Hpa. unfold reap_child. cbv [bind gets].
  rewrite (not_this_child _ _ (or_intror Hsp)), (not_this_child _ _ (or_intror Hbw)),
    (not_this_child _ _ (or_intror Hpa)).
  replace (negb (PgStatPID st =? 0) && (PgStatPID st =? PgStatPID st)) with true
    by (rewrite Z.eqb_refl; destruct (Z.eqb_spec (PgStatPID st) 0); [contradiction | reflexivity]).
  cbv [modify when ret]. cbn [StartupPID FatalError Shutdown set_PgStatPID].
  destruct ((StartupPID st =? 0) && negb (FatalError st) && (Shutdown st =? NoShutdown)) eqn:C.
  - rewrite !andb_true_iff, negb_true_iff, !Z.eqb_eq in C.
    unfold pgstat_start, start_aux, bind, fork. cbn [forks set_PgStatPID].
    destruct (forks st) as [|[|] r]; cbn;
      (eexists; split; [reflexivity|]); cbn; repeat split; tauto.
  - eexists; split; [reflexivity|]. cbn. repeat split;
      exfalso; match goal with H : ?a <> ?a |- _ => apply H; reflexivity end.
Qed.

(** ** Instances of the properties above on concrete inputs *)

Lemma CharRemap_alnum_witness :
  -9223372036854775808 < -12345 < 9223372036854775808
  /\ (let z := byteZ (CharRemap (-12345)) in
      (65 <= z <= 90) \/ (97 <= z <= 122) \/ (48 <= z <= 57)).
Proof.
  assert (H : -9223372036854775808 < -12345 < 9223372036854775808) by lia.
  split; [exact H | exact (CharRemap_alnum (-12345) H)].
Defined.

Lemma CharRemap_injective_witness :
  0 <= 3 < 62 /\ 0 <= 40 < 62 /\ (CharRemap 3 = CharRemap 40 -> 3 = 40).
Proof.
  assert (Ha : 0 <= 3 < 62) by lia. assert (Hb : 0 <= 40 < 62) by lia.
  split; [exact Ha|]. split; [exact Hb|]. exact (CharRemap_injective 3 40 Ha Hb).
Defined.

Lemma RandomSalt_valid_witness :
  0 <= 123456789 < 2147483648 /\ 0 <= 42 < 2147483648
  /\ 0 <= 2147483647 < 2147483648 /\ 0 <= 0 < 2147483648
  /\ (let '(cryptSalt, md5Salt) := RandomSalt 123456789 42 2147483647 0 in
      length cryptSalt = 2%nat /\ length md5Salt = 4%nat
      /\ Forall (fun b => let z := byteZ b in
                          (65 <= z <= 90) \/ (97 <= z <= 122) \/ (48 <= z <= 57)) cryptSalt
      /\ Forall (fun b => b <> x00) md5Salt).
Proof.
  assert (H0 : 0 <= 123456789 < 2147483648) by lia.
  assert (H1 : 0 <= 42 < 2147483648) by lia.
  assert (H2 : 0 <= 2147483647 < 2147483648) by lia.
  assert (H3 : 0 <= 0 < 2147483648) by lia.
  split; [exact H0|]. split; [exact H1|]. split; [exact H2|]. split; [exact H3|].
  exact (RandomSalt_valid 123456789 42 2147483647 0 H0 H1 H2 H3).
Defined.

Lemma ShmemBackendArrayAdd_cancel_witness :
  ShmemBackendArrayAdd (mkBackend 42 7) [mkBackend 5 1; mkBackend 0 9; mkBackend 0 0]
    = Some [mkBackend 5 1; mkBackend 42 7; mkBackend 0 0]
  /\ processCancelRequest [mkBackend 5 1; mkBackend 42 7; mkBackend 0 0]
       (htonl CANCEL_REQUEST_CODE ++ htonl 42 ++ htonl 7) = [(42, SIGINT)].
Proof.
  assert (Hadd : ShmemBackendArrayAdd (mkBackend 42 7) [mkBackend 5 1; mkBackend 0 9; mkBackend 0 0]
                 = Some [mkBackend 5 1; mkBackend 42 7; mkBackend 0 0]) by reflexivity.
  assert (Hp : 0 <= pid (mkBackend 42 7) < 2147483648) by (simpl; lia).
  assert (Hk : 0 <= cancel_key (mkBackend 42 7) < 4294967296) by (simpl; lia).
  assert (Hn : ~ In (pid (mkBackend 42 7)) (map pid [mkBackend 5 1; mkBackend 0 9; mkBackend 0 0]))
    by (simpl; lia).
  split; [exact Hadd|].
  exact (ShmemBackendArrayAdd_cancel (mkBackend 42 7) _ _ Hp Hk Hn Hadd).
Defined.

Lemma ShmemBackendArrayRemove_cancel_witness :
  (count_occ Z.eq_dec (map pid [mkBackend 5 1; mkBackend 42 7]) 42%Z <= 1)%nat
  /\ (snd (ShmemBackendArrayRemove 42 [mkBackend 5 1; mkBackend 42 7]) = true
      <-> In 42 (map pid [mkBackend 5 1; mkBackend 42 7]))
  /\ length (fst (ShmemBackendArrayRemove 42 [mkBackend 5 1; mkBackend 42 7]))
     = length [mkBackend 5 1; mkBackend 42 7]
  /\ processCancelRequest (fst (ShmemBackendArrayRemove 42 [mkBackend 5 1; mkBackend 42 7]))
       (htonl CANCEL_REQUEST_CODE ++ htonl 42 ++ htonl 7) = [].
Proof.
  assert (Hp : 0 < 42 < 2147483648) by lia.
  assert (Hk : 0 <= 7 < 4294967296) by lia.
  assert (Hc : (count_occ Z.eq_dec (map pid [mkBackend 5 1; mkBackend 42 7]) 42%Z <= 1)%nat)
    by (vm_compute; lia).
  split; [exact Hc|].
  exact (ShmemBackendArrayRemove_cancel 42 7 _ Hp Hk Hc).
Defined.

Lemma win32_RemoveChild_spec_witness :
  length (childPIDs (mkW32 [10; 20; 30] [100; 200; 300]))
  = length (childHNDs (mkW32 [10; 20; 30] [100; 200; 300]))
  /\ exists w' h, win32_RemoveChild 20 (mkW32 [10; 20; 30] [100; 200; 300]) = (w', Some h)
       /\ length (childPIDs w') = Nat.sub (length (childPIDs (mkW32 [10; 20; 30] [100; 200; 300]))) 1
       /\ length (childHNDs w') = length (childPIDs w')
       /\ Permutation (combine [10; 20; 30] [100; 200; 300])
                      ((20, h) :: combine (childPIDs w') (childHNDs w')).
Proof.
  assert (Hl : length (childPIDs (mkW32 [10; 20; 30] [100; 200; 300]))
               = length (childHNDs (mkW32 [10; 20; 30] [100; 200; 300]))) by reflexivity.
  split; [exact Hl|].
  apply (proj2 (win32_RemoveChild_spec 20 (mkW32 [10; 20; 30] [100; 200; 300]) Hl)).
  simpl; tauto.
Defined.

Lemma win32_AddChild_RemoveChild_witness :
  win32_AddChild default_config 40 400 (mkW32 [10; 20; 30] [100; 200; 300])
    = Some (mkW32 [10; 20; 30; 40] [100; 200; 300; 400])
  /\ win32_RemoveChild 40 (mkW32 [10; 20; 30; 40] [100; 200; 300; 400])
     = (mkW32 [10; 20; 30] [100; 200; 300], Some 400).
Proof.
  assert (Ha : win32_AddChild default_config 40 400 (mkW32 [10; 20; 30] [100; 200; 300])
               = Some (mkW32 [10; 20; 30; 40] [100; 200; 300; 400])) by reflexivity.
  assert (Hl : length (childHNDs (mkW32 [10; 20; 30] [100; 200; 300]))
               = length (childPIDs (mkW32 [10; 20; 30] [100; 200; 300]))) by reflexivity.
  assert (Hn : ~ In 40 (childPIDs (mkW32 [10; 20; 30] [100; 200; 300]))) by (simpl; lia).
  split; [exact Ha|].
  exact (win32_AddChild_RemoveChild default_config 40 400 _ _ Hl Hn Ha).
Defined.



Lemma reap_child_bgwriter_exit_witness :
  reap_child default_config 11 0 (mkPM 1 0 11 0 0 0 false [] 100 [] [])
    = Exited 0 (set_BgWriterPID 0 (mkPM 1 0 11 0 0 0 false [] 100 [] []))
  /\ exists st', reap_child default_config 11 256 (mkPM 1 0 11 0 0 0 false [] 100 [] []) = Ok tt st'
       /\ FatalError st' = true /\ BgWriterPID st' = 0.
Proof.
  assert (H1 : BgWriterPID (mkPM 1 0 11 0 0 0 false [] 100 [] []) <> 0) by (simpl; lia).
  assert (H2 : BgWriterPID (mkPM 1 0 11 0 0 0 false [] 100 [] [])
               <> StartupPID (mkPM 1 0 11 0 0 0 false [] 100 [] [])) by (simpl; lia).
  split.
  - apply (proj1 (reap_child_bgwriter_exit default_config 0 _ H1 H2)).
    simpl. repeat split; lia.
  - apply (proj2 (reap_child_bgwriter_exit default_config 256 _ H1 H2)).
    intros [H _]. lia.
Defined.

Lemma ProcessStartupPacket_framing_errors_witness :
  ProcessStartupPacket default_config [] (mkSSLEnv true true) (new_port false CAC_OK) false
    (htonl 5 ++ [x00; x03; x00; x00; x00]) = mkOut PSP_ERROR [] []
  /\ ProcessStartupPacket default_config [] (mkSSLEnv true true) (new_port false CAC_OK) false
    (htonl 20 ++ [x00; x03; x00; x00]) = mkOut PSP_ERROR [] [].
Proof.
  assert (Hm : MAX_STARTUP_PACKET_LENGTH default_config < 2147483644) by (simpl; lia).
  split.
  - apply (ProcessStartupPacket_framing_errors default_config [] (mkSSLEnv true true)
             (new_port false CAC_OK) false _ Hm).
    right; left. vm_compute. reflexivity.
  - apply (ProcessStartupPacket_framing_errors default_config [] (mkSSLEnv true true)
             (new_port false CAC_OK) false _ Hm).
    right; right; right. vm_compute. reflexivity.
Defined.

Lemma protocol3_startup_roundtrip_witness :
  ProcessStartupPacket default_config [] (mkSSLEnv true true) (new_port false CAC_OK) false
    (startup_packet (htonl (PG_PROTOCOL 3 0)
       ++ encode_options [(bytes "user"%string, bytes "alice"%string);
                          (bytes "application_name"%string, bytes "psql"%string)]) ++ [])
  = mkOut (finish_startup default_config (set_proto (PG_PROTOCOL 3 0) (new_port false CAC_OK))
             (fold_left add_option
                [(bytes "user"%string, bytes "alice"%string);
                 (bytes "application_name"%string, bytes "psql"%string)] no_fields)) [] [].
Proof.
  apply protocol3_startup_roundtrip.
  - split; vm_compute; [intros H; discriminate H | reflexivity].
  - intros H. vm_compute in H. discriminate H.
  - intros H. vm_compute in H. discriminate H.
  - vm_compute. reflexivity.
  - vm_compute. intros H; discriminate H.
  - repeat constructor; vm_compute; intros H;
      repeat (destruct H as [H|H]; [discriminate H|]); first [discriminate H | destruct H].
  - vm_compute. reflexivity.
  - vm_compute. intros H; discriminate H.
Defined.

Lemma finish_startup_names_witness :
  finish_startup (mkConfig 100 false true true false false false
                    (PG_PROTOCOL 1 0) (PG_PROTOCOL 3 0) 10000)
    (new_port false CAC_OK) (mkFields None (Some [x40]) None [])
  = PSP_OK (mkPort false CAC_OK 0 (Some [x40]) (Some []) None [])
  /\ exists db user,
    database_name (mkPort false CAC_OK 0 (Some [x40]) (Some []) None []) = Some db
    /\ user_name (mkPort false CAC_OK 0 (Some [x40]) (Some []) None []) = Some user
    /\ db <> [] /\ (length db <= 63)%nat /\ (length user <= 63)%nat
    /\ (user = [] <-> Db_user_namespace (mkConfig 100 false true true false false false
                        (PG_PROTOCOL 1 0) (PG_PROTOCOL 3 0) 10000) = true
                      /\ f_user (mkFields None (Some [x40]) None []) = Some [x40]).
Proof.
  assert (H : finish_startup (mkConfig 100 false true true false false false
                                (PG_PROTOCOL 1 0) (PG_PROTOCOL 3 0) 10000)
                (new_port false CAC_OK) (mkFields None (Some [x40]) None [])
              = PSP_OK (mkPort false CAC_OK 0 (Some [x40]) (Some []) None [])) by reflexivity.
  split; [exact H|]. exact (finish_startup_names _ _ _ _ H).
Defined.

Lemma reap_child_archiver_exit_witness :
  exists st', reap_child default_config 12 1 (mkPM 0 0 11 12 13 14 false [] 100 [] []) = Ok tt st'
    /\ FatalError st' = false /\ BackendList st' = []
    /\ Shutdown st' = 0 /\ StartupPID st' = 0 /\ kills st' = []
    /\ (PgArchPID st' <> 0 -> XLogArchivingActive default_config = true /\ 0 = 0
                              /\ false = false /\ 0 = NoShutdown).
Proof.
  assert (H1 : PgArchPID (mkPM 0 0 11 12 13 14 false [] 100 [] []) <> 0) by (simpl; lia).
  assert (H2 : PgArchPID (mkPM 0 0 11 12 13 14 false [] 100 [] [])
               <> StartupPID (mkPM 0 0 11 12 13 14 false [] 100 [] [])) by (simpl; lia).
  assert (H3 : PgArchPID (mkPM 0 0 11 12 13 14 false [] 100 [] [])
               <> BgWriterPID (mkPM 0 0 11 12 13 14 false [] 100 [] [])) by (simpl; lia).
  exact (reap_child_archiver_exit default_config 1 _ H1 H2 H3).
Defined.

Lemma reap_child_stats_exit_witness :
  exists st', reap_child default_config 13 1 (mkPM 0 0 11 12 13 14 false [] 100 [] []) = Ok tt st'
    /\ FatalError st' = false /\ BackendList st' = []
    /\ Shutdown st' = 0 /\ StartupPID st' = 0 /\ kills st' = []
    /\ (PgStatPID st' <> 0 -> 0 = 0 /\ false = false /\ 0 = NoShutdown).
Proof.
  assert (H1 : PgStatPID (mkPM 0 0 11 12 13 14 false [] 100 [] []) <> 0) by (simpl; lia).
  assert (H2 : PgStatPID (mkPM 0 0 11 12 13 14 false [] 100 [] [])
               <> StartupPID (mkPM 0 0 11 12 13 14 false [] 100 [] [])) by (simpl; lia).
  assert (H3 : PgStatPID (mkPM 0 0 11 12 13 14 false [] 100 [] [])
               <> BgWriterPID (mkPM 0 0 11 12 13 14 false [] 100 [] [])) by (simpl; lia).
  assert (H4 : PgStatPID (mkPM 0 0 11 12 13 14 false [] 100 [] [])
               <> PgArchPID (mkPM 0 0 11 12 13 14 false [] 100 [] [])) by (simpl; lia).
  exact (reap_child_stats_exit default_config 1 _ H1 H2 H3 H4).
Defined.
